(** * Blog comment worker: request validation, sanitisation and admin gating

    A shallow embedding of [src/index.js] (the Cloudflare Worker) and of the
    table of [schema.sql].  JavaScript strings are sequences of UTF-16 code
    units; the D1 table is a list of rows in rowid order; every handler is a
    function from the request and the store to a response and the new store.
    The computing parts of the browser script [comment-system.js] (the form
    check, the requests it sends, relative times) are embedded beside it. *)

From Stdlib Require Import List ZArith NArith Bool String Ascii Lia.
From Stdlib Require Import DecimalString.
From Stdlib Require Import Permutation Sorted.
Import ListNotations.

(* ================================================================== *)
(** ** JavaScript strings *)
(* ================================================================== *)

Module JsString.

Local Open Scope N_scope.

(** A JavaScript string: its UTF-16 code units.  [.length] is [length]. *)
Definition jsstring := list N.

(** A string literal of the source (ASCII only). *)
Definition js (s : string) : jsstring :=
  map N_of_ascii (list_ascii_of_string s).

(** [===] on two strings. *)
Fixpoint streq (a b : jsstring) : bool :=
  match a, b with
  | [], [] => true
  | x :: a', y :: b' => (x =? y) && streq a' b'
  | _, _ => false
  end.

(** ECMAScript WhiteSpace and LineTerminator code points, the ones
    [String.prototype.trim] strips: TAB, LF, VT, FF, CR, SP, NBSP, the
    category Zs (U+1680, U+2000..U+200A, U+202F, U+205F, U+3000), LS, PS
    and the BOM U+FEFF. *)
Definition isWhiteSpace (c : N) : bool :=
  (c =? 9) || (c =? 10) || (c =? 11) || (c =? 12) || (c =? 13)
  || (c =? 32) || (c =? 160) || (c =? 5760)
  || ((8192 <=? c) && (c <=? 8202))
  || (c =? 8232) || (c =? 8233) || (c =? 8239) || (c =? 8287)
  || (c =? 12288) || (c =? 65279).

Fixpoint trimStart (s : jsstring) : jsstring :=
  match s with
  | [] => []
  | c :: rest => if isWhiteSpace c then trimStart rest else s
  end.

Definition trimEnd (s : jsstring) : jsstring := rev (trimStart (rev s)).

(** [s.trim()] *)
Definition trim (s : jsstring) : jsstring := trimEnd (trimStart s).

(** [s.replace(/c/g, by)] for a pattern that is the single character [c]
    and a replacement without [$]. *)
Definition replaceAll (c : N) (by_ : jsstring) (s : jsstring) : jsstring :=
  flat_map (fun x => if x =? c then by_ else [x]) s.

(** [parts.join(sep)] *)
Fixpoint join (sep : jsstring) (parts : list jsstring) : jsstring :=
  match parts with
  | [] => []
  | [p] => p
  | p :: rest => p ++ sep ++ join sep rest
  end.

Definition startsWith (p s : jsstring) : bool :=
  streq p (firstn (List.length p) s).

(** Code units of the characters the source names. *)
Definition AMP : N := 38.
Definition LT : N := 60.
Definition GT : N := 62.
Definition DQUOTE : N := 34.
Definition SQUOTE : N := 39.

End JsString.
Import JsString.

(* ================================================================== *)
(** ** The sanitizer, [sanitizeInput] (index.js, lines 31-38) *)
(* ================================================================== *)

Definition sanitizeInput (input : jsstring) : jsstring :=
  replaceAll SQUOTE (js "&#39;")
    (replaceAll DQUOTE (js "&quot;")
       (replaceAll GT (js "&gt;")
          (replaceAll LT (js "&lt;")
             (trim input)))).

(** What one character of the trimmed input becomes in [sanitizeInput]. *)
Definition escapeChar (c : N) : jsstring :=
  if (c =? LT)%N then js "&lt;"
  else if (c =? GT)%N then js "&gt;"
  else if (c =? DQUOTE)%N then js "&quot;"
  else if (c =? SQUOTE)%N then js "&#39;"
  else [c].

(** The sanitizer as the specification words it: five characters, the
    ampersand replaced first. *)
Definition sanitize_spec (text : jsstring) : jsstring :=
  replaceAll SQUOTE (js "&#39;")
    (replaceAll DQUOTE (js "&quot;")
       (replaceAll GT (js "&gt;")
          (replaceAll LT (js "&lt;")
             (replaceAll AMP (js "&amp;")
                (trim text))))).

(* ================================================================== *)
(** ** [new URL(string)]: the platform's URL parser, without a base URL *)
(* ================================================================== *)

(** [isValidUrl] only asks whether the constructor throws.  The URL
    Standard's parser fails, for an input without base URL, in exactly these
    places: no scheme; and, once an authority is read, a missing or invalid
    host or port.  Scheme scanning and the opaque and path-only forms are
    written out below.  Authority parsing is written out for the plainest
    host (lower-case letters and dots) and is otherwise a function of the
    runtime, [authority scheme remainder], which returns the host on
    success. *)
Module Url.

Local Open Scope N_scope.

Record URL := { protocol : jsstring; host : jsstring }.

Definition isC0ControlOrSpace (c : N) : bool := c <=? 32.
Definition isTabOrNewline (c : N) : bool := (c =? 9) || (c =? 10) || (c =? 13).
Definition isUpper (c : N) : bool := (65 <=? c) && (c <=? 90).
Definition isLower (c : N) : bool := (97 <=? c) && (c <=? 122).
Definition isAsciiAlpha (c : N) : bool := isUpper c || isLower c.
Definition isAsciiDigit (c : N) : bool := (48 <=? c) && (c <=? 57).
Definition toLower (c : N) : N := if isUpper c then c + 32 else c.
Definition isSchemeChar (c : N) : bool :=
  isAsciiAlpha c || isAsciiDigit c || (c =? 43) || (c =? 45) || (c =? 46).
Definition isSlash (c : N) : bool := (c =? 47) || (c =? 92).
Definition endsAuthority (c : N) : bool :=
  isSlash c || (c =? 63) || (c =? 35).

Fixpoint dropWhile (f : N -> bool) (s : jsstring) : jsstring :=
  match s with
  | [] => []
  | c :: rest => if f c then dropWhile f rest else s
  end.

Fixpoint takeWhile (f : N -> bool) (s : jsstring) : jsstring :=
  match s with
  | [] => []
  | c :: rest => if f c then c :: takeWhile f rest else []
  end.

(** Leading and trailing C0 controls and spaces are removed, then every
    tab and newline. *)
Definition preprocess (input : jsstring) : jsstring :=
  filter (fun c => negb (isTabOrNewline c))
    (rev (dropWhile isC0ControlOrSpace
       (rev (dropWhile isC0ControlOrSpace input)))).

(** Scheme state: letters, digits, [+], [-], [.] up to the colon; anything
    else, or the end of the input, leaves the input without a scheme. *)
Fixpoint scanScheme (buffer s : jsstring) : option (jsstring * jsstring) :=
  match s with
  | [] => None
  | c :: rest =>
      if c =? 58 then Some (rev buffer, rest)
      else if isSchemeChar c then scanScheme (toLower c :: buffer) rest
      else None
  end.

(** Scheme start state: the first character must be a letter. *)
Definition splitScheme (s : jsstring) : option (jsstring * jsstring) :=
  match s with
  | c :: _ => if isAsciiAlpha c then scanScheme [] s else None
  | [] => None
  end.

Definition isSpecial (scheme : jsstring) : bool :=
  existsb (streq scheme)
    [js "ftp"; js "file"; js "http"; js "https"; js "ws"; js "wss"].

(** A host made of lower-case ASCII letters and dots, beginning and ending
    with a letter: no credentials, no port, nothing for IDNA to change, and
    the last label is not a number. *)
Definition plainDomain (h : jsstring) : bool :=
  match h, rev h with
  | first :: _, last :: _ =>
      isLower first && isLower last
      && forallb (fun c => isLower c || (c =? 46)) h
  | _, _ => false
  end.

Section Parser.

Variable authority : jsstring -> jsstring -> option jsstring.

Definition parse (input : jsstring) : option URL :=
  match splitScheme (preprocess input) with
  | None => None
  | Some (scheme, rest) =>
      let withHost (h : option jsstring) :=
        option_map (fun h => {| protocol := scheme; host := h |}) h in
      if isSpecial scheme then
        if streq scheme (js "file") then withHost (authority scheme rest)
        else
          let h := takeWhile (fun c => negb (endsAuthority c))
                     (dropWhile isSlash rest) in
          if plainDomain h then withHost (Some h)
          else withHost (authority scheme rest)
      else
        match rest with
        | 47 :: 47 :: _ => withHost (authority scheme rest)
        | _ => withHost (Some [])
        end
  end.

End Parser.

End Url.

(* ================================================================== *)
(** ** Values of a parsed JSON body *)
(* ================================================================== *)

Module Json.

(** What [await request.json()] yields, and [Undefined] for a property the
    body does not have.  A number is kept as the two things the handlers can
    observe of it: whether it is falsy (0, -0, NaN) and its [ToString]. *)
#[warnings="-register-all"]
Inductive value :=
| Undefined
| Null
| Bool (b : bool)
| Number (falsy : bool) (text : jsstring)
| Str (s : jsstring)
| Array (items : list value)
| Object (members : list (jsstring * value)).

Definition isEmpty (s : jsstring) : bool :=
  match s with [] => true | _ => false end.

(** [!v] is [negb (truthy v)]. *)
Definition truthy (v : value) : bool :=
  match v with
  | Undefined | Null => false
  | Bool b => b
  | Number falsy _ => negb falsy
  | Str s => negb (isEmpty s)
  | Array _ | Object _ => true
  end.

(** Does a parsed object have an own member [name]? *)
Definition hasMember (name : jsstring) (members : list (jsstring * value))
  : bool :=
  existsb (fun member => streq (fst member) name) members.

(** [ToString], as the [URL] constructor applies it to its argument;
    [None] is a [TypeError].  An array is joined with commas,
    [undefined] and [null] elements as the empty string, and the conversion
    of an element may throw.  An object of [JSON.parse] prints through
    [Object.prototype.toString] unless it has an own member [toString]: no
    JSON value is callable, the inherited [valueOf] returns the object
    itself, and the conversion throws. *)
Fixpoint toString (v : value) : option jsstring :=
  match v with
  | Undefined => Some (js "undefined")
  | Null => Some (js "null")
  | Bool true => Some (js "true")
  | Bool false => Some (js "false")
  | Number _ text => Some text
  | Str s => Some s
  | Array items =>
      option_map (join (js ","))
        ((fix each (items : list value) : option (list jsstring) :=
            match items with
            | [] => Some []
            | x :: rest =>
                match match x with
                      | Undefined | Null => Some []
                      | _ => toString x
                      end, each rest with
                | Some part, Some parts => Some (part :: parts)
                | _, _ => None
                end
            end) items)
  | Object members =>
      if hasMember (js "toString") members then None
      else Some (js "[object Object]")
  end.

(** Own property [name] of a parsed object; [JSON.parse] keeps the last of
    several members with one name. *)
Fixpoint lookup (name : jsstring) (members : list (jsstring * value)) : value :=
  match members with
  | [] => Undefined
  | (k, v) :: rest =>
      match lookup name rest with
      | Undefined => if streq k name then v else Undefined
      | later => later
      end
  end.

(** [const { name } = body]: a [TypeError] ([None]) when the body is
    [null]; [undefined] when the body is not an object with that member. *)
Definition property (body : value) (name : jsstring) : option value :=
  match body with
  | Undefined | Null => None
  | Object members => Some (lookup name members)
  | _ => Some Undefined
  end.

End Json.
Import Json.

(* ================================================================== *)
(** ** The [comments] table (schema.sql) and the worker's bindings *)
(* ================================================================== *)

(** One row.  [created_at] is the [CURRENT_TIMESTAMP] text, which orders as
    the second it denotes; it is kept as that number. *)
Record Comment := {
  id : Z;
  page_url : jsstring;
  author_name : jsstring;
  comment_content : jsstring;
  created_at : Z;
  status : jsstring
}.

(** The D1 database: the rows in rowid order, the AUTOINCREMENT counter of
    [sqlite_sequence], the database's clock, whether statements succeed
    ([available = false]: every statement throws), and how many statements
    the worker has sent so far. *)
Record D1 := {
  comments : list Comment;
  sequence : Z;
  clock : Z;
  available : bool;
  statements : nat
}.

(** *** Text as D1 keeps it

    D1 keeps text as UTF-8.  A surrogate code unit that is not part of a
    pair has no UTF-8 form: the text that was bound comes back with three
    U+FFFD in its place.  [pending] is a leading surrogate whose trailing
    one has not been read yet. *)
Definition isHighSurrogate (c : N) : bool :=
  ((55296 <=? c) && (c <=? 56319))%N.

Definition isLowSurrogate (c : N) : bool :=
  ((56320 <=? c) && (c <=? 57343))%N.

Definition REPLACEMENT : N := 65533.

Definition lone : jsstring := [REPLACEMENT; REPLACEMENT; REPLACEMENT].

Fixpoint storedFrom (pending : option N) (s : jsstring) : jsstring :=
  match pending, s with
  | None, [] => []
  | Some _, [] => lone
  | None, c :: rest =>
      if isHighSurrogate c then storedFrom (Some c) rest
      else if isLowSurrogate c then lone ++ storedFrom None rest
      else c :: storedFrom None rest
  | Some h, c :: rest =>
      if isLowSurrogate c then h :: c :: storedFrom None rest
      else if isHighSurrogate c then lone ++ storedFrom (Some c) rest
      else lone ++ c :: storedFrom None rest
  end.

(** The text a bound string is read back as. *)
Definition storedText (s : jsstring) : jsstring := storedFrom None s.

(** *** Row ids as D1 keeps and reports them

    [id] is the rowid, a signed 64-bit integer.  The worker sees a rowid as
    a JavaScript number: the nearest double, ties to the even mantissa.
    Every integer up to 2^53 is a double. *)
Definition MAX_ROWID : Z := 9223372036854775807.

Definition MAX_EXACT : Z := 9007199254740992.

Definition toDouble (n : Z) : Z :=
  let m := Z.abs n in
  if (m <=? MAX_EXACT)%Z then n
  else
    let e := (Z.log2 m - 52)%Z in
    let q := (m / 2 ^ e)%Z in
    let r := (m mod 2 ^ e)%Z in
    let half := (2 ^ (e - 1))%Z in
    let up := (half <? r)%Z || ((r =? half)%Z && Z.odd q) in
    (Z.sgn n * ((if up then q + 1 else q) * 2 ^ e))%Z.

(** *** [ORDER BY created_at ASC] of the page listing

    The page listing is read through the indexes of [schema.sql], whose
    entries for one value of the indexed column are in rowid order: D1
    returns the rows of the listing that share a [created_at] in rowid
    order.  [id] is the rowid ([INTEGER PRIMARY KEY]), so the rows come out
    by [created_at], then by [id]. *)
Definition earlier (a b : Comment) : bool :=
  ((created_at a <? created_at b)
   || ((created_at a =? created_at b) && (id a <? id b)))%Z.

Fixpoint insertByTime (c : Comment) (sorted : list Comment) : list Comment :=
  match sorted with
  | [] => [c]
  | d :: rest =>
      if earlier c d then c :: sorted else d :: insertByTime c rest
  end.

Definition byCreatedAt (rows : list Comment) : list Comment :=
  fold_right insertByTime [] rows.

(** [env]: the bindings of the worker.  [SECRETS] is the KV namespace of the
    README's [wrangler.toml]; [ADMIN_SECRET_KEY] the environment variable. *)
Record Env := {
  DB : D1;
  SECRETS : list (jsstring * jsstring);
  ADMIN_SECRET_KEY : option jsstring
}.

(** What the runtime decides and the source does not: the part of URL
    parsing left open in [Url.parse], and the order in which the database
    returns the rows of the admin listing that its [ORDER BY] key does not
    separate. *)
Record Runtime := {
  authority : jsstring -> jsstring -> option jsstring;
  orderBy : (Comment -> Z) -> list Comment -> list Comment;
  orderBy_perm : forall key rows, Permutation (orderBy key rows) rows;
  orderBy_sorted : forall key rows,
      StronglySorted (fun a b => (key a <= key b)%Z) (orderBy key rows)
}.

Record Request := {
  method : jsstring;
  pathname : jsstring;
  searchParams : list (jsstring * jsstring);
  json : option value
}.

Inductive Page :=
| AdminHTML
| CommentWidgetHTML (pageUrl : jsstring).

Inductive Body :=
| NoBody
| Text (text : jsstring)
| ErrorJson (error : jsstring)
| CommentsJson (withStatus : bool) (results : list Comment) (count : nat)
| CreatedJson (comment : option Comment)
| DeletedJson (message : jsstring)
| Html (page : Page).

(** A response as the worker builds it: [headers] are the headers it
    passes to the constructor. *)
Module Response.
Record t := {
  status : Z;
  body : Body;
  headers : list (jsstring * jsstring)
}.
End Response.
Abbreviation Response := Response.t.

(* ================================================================== *)
(** ** The handlers of [src/index.js] *)
(* ================================================================== *)

Section Worker.

Variable rt : Runtime.

(** [corsHeaders()] *)
Definition corsHeaders : list (jsstring * jsstring) :=
  [ (js "Access-Control-Allow-Origin", js "*");
    (js "Access-Control-Allow-Methods", js "GET, POST, DELETE, OPTIONS");
    (js "Access-Control-Allow-Headers", js "Content-Type") ].

Definition jsonHeaders : list (jsstring * jsstring) :=
  (js "Content-Type", js "application/json") :: corsHeaders.

Definition htmlHeaders : list (jsstring * jsstring) :=
  (js "Content-Type", js "text/html") :: corsHeaders.

(** [new Response(JSON.stringify({ error }), { status, headers })] *)
Definition errorResponse (status : Z) (error : string) : Response :=
  {| Response.status := status;
     Response.body := ErrorJson (js error);
     Response.headers := jsonHeaders |}.

(** [handleOptions()] *)
Definition handleOptions : Response :=
  {| Response.status := 200;
     Response.body := NoBody;
     Response.headers := corsHeaders |}.

(** [isValidUrl(string)]: does [new URL(string)] return?  The
    constructor converts its argument with [ToString] and parses the
    result; the [catch] takes a throw of either. *)
Definition isValidUrl (v : value) : bool :=
  match toString v with
  | Some s =>
      match Url.parse (authority rt) s with
      | Some _ => true
      | None => false
      end
  | None => false
  end.

(** [url.searchParams.get(name)] *)
Fixpoint get (name : jsstring) (params : list (jsstring * jsstring))
  : option jsstring :=
  match params with
  | [] => None
  | (k, v) :: rest => if streq k name then Some v else get name rest
  end.

(** A statement reaches the database: it is counted, whether or not it
    then throws. *)
Definition sent (env : Env) : Env :=
  let db := DB env in
  {| DB := {| comments := comments db; sequence := sequence db;
              clock := clock db; available := available db;
              statements := S (statements db) |};
     SECRETS := SECRETS env;
     ADMIN_SECRET_KEY := ADMIN_SECRET_KEY env |}.

Definition withComments (rows : list Comment) (seq : Z) (env : Env) : Env :=
  let db := DB env in
  {| DB := {| comments := rows; sequence := seq;
              clock := clock db; available := available db;
              statements := statements db |};
     SECRETS := SECRETS env;
     ADMIN_SECRET_KEY := ADMIN_SECRET_KEY env |}.

(** [WHERE page_url = ? AND status = 'approved'] *)
Definition approvedOn (pageUrl : jsstring) (c : Comment) : bool :=
  streq (page_url c) pageUrl && streq (status c) (js "approved").

(** The statement of lines 72-77:
    [SELECT id, author_name, comment_content, created_at, page_url
     FROM comments WHERE page_url = ? AND status = 'approved'
     ORDER BY created_at ASC], bound to [pageUrl], with [.all()]. *)
Definition selectByPage (pageUrl : jsstring) (db : D1) : list Comment :=
  byCreatedAt (filter (approvedOn pageUrl) (comments db)).

(** [getComments(request, env)], lines 41-104. *)
Definition getComments (request : Request) (env : Env) : Response * Env :=
  match get (js "page_url") (searchParams request) with
  | None => (errorResponse 400 "page_url parameter is required", env)
  | Some pageUrl =>
      if isEmpty pageUrl then
        (errorResponse 400 "page_url parameter is required", env)
      else if negb (isValidUrl (Str pageUrl)) then
        (errorResponse 400 "Invalid page_url format", env)
      else if available (DB env) then
        let results := selectByPage pageUrl (DB env) in
        ({| Response.status := 200;
            Response.body := CommentsJson false results (List.length results);
            Response.headers := jsonHeaders |}, sent env)
      else (errorResponse 500 "Failed to retrieve comments", sent env)
  end.

(** The checks of one text field: the same three steps at lines 121-127
    and 129-135, with the messages and the limit of each. *)
Definition textErrors (required empty tooLong : string) (limit : nat)
  (v : value) : list jsstring :=
  if negb (truthy v) then [js required]
  else
    match v with
    | Str s =>
        if Nat.eqb (List.length (trim s)) 0 then [js empty]
        else if Nat.ltb limit (List.length (trim s)) then [js tooLong]
        else []
    | _ => [js empty]
    end.

Definition authorNameErrors : value -> list jsstring :=
  textErrors "author_name is required" "author_name cannot be empty"
    "author_name must be 100 characters or less" 100.

Definition commentContentErrors : value -> list jsstring :=
  textErrors "comment_content is required" "comment_content cannot be empty"
    "comment_content must be 1000 characters or less" 1000.

(** The checks of [page_url], lines 115-119. *)
Definition pageUrlErrors (v : value) : list jsstring :=
  if negb (truthy v) then [js "page_url is required"]
  else if negb (isValidUrl v) then [js "Invalid page_url format"]
  else [].

(** The [errors] array of [createComment], lines 113-135. *)
Definition validate (page_url author_name comment_content : value)
  : list jsstring :=
  pageUrlErrors page_url
  ++ authorNameErrors author_name
  ++ commentContentErrors comment_content.

(** The largest rowid the table has or ever had. *)
Definition maxId (rows : list Comment) : Z :=
  fold_right (fun c m => Z.max (id c) m) 0%Z rows.

Definition largestRowid (db : D1) : Z :=
  Z.max (sequence db) (maxId (comments db)).

(** AUTOINCREMENT: one more than the largest rowid the table has or ever
    had; once that is the largest 64-bit integer the [INSERT] fails
    ([None], SQLITE_FULL). *)
Definition nextId (db : D1) : option Z :=
  if (largestRowid db <? MAX_ROWID)%Z then Some (largestRowid db + 1)%Z
  else None.

(** [SELECT ... FROM comments WHERE id = ?] with [.first()] *)
Definition byId (n : Z) (rows : list Comment) : option Comment :=
  find (fun c => Z.eqb (id c) n) rows.

(** [INSERT INTO comments (page_url, author_name, comment_content, status)
    VALUES (?, ?, ?, 'approved')]: the new row and the table after it, or
    [None] when the statement fails for want of a rowid. *)
Definition insert (pageUrl name content : jsstring) (db : D1)
  : option (Comment * list Comment) :=
  match nextId db with
  | None => None
  | Some rowid =>
      let row := {| id := rowid;
                    page_url := storedText pageUrl;
                    author_name := storedText name;
                    comment_content := storedText content;
                    created_at := clock db;
                    status := js "approved" |} in
      Some (row, comments db ++ [row])
  end.

(** [createComment(request, env)], lines 107-199.  Everything is inside
    the [try]: a body that is not JSON, a [null] body, [.trim()] on a
    value that is not a string and a failed [INSERT] all end in the
    [catch].  The new row is read back by [result.meta.last_row_id], a
    JavaScript number. *)
Definition createComment (request : Request) (env : Env) : Response * Env :=
  let failed := errorResponse 500 "Failed to create comment" in
  match json request with
  | None => (failed, env)
  | Some body =>
      match property body (js "page_url"),
            property body (js "author_name"),
            property body (js "comment_content") with
      | Some page_url, Some author_name, Some comment_content =>
          let errors := validate page_url author_name comment_content in
          if Nat.ltb 0 (List.length errors) then
            ({| Response.status := 400;
                Response.body := ErrorJson (join (js "; ") errors);
                Response.headers := jsonHeaders |}, env)
          else
            match page_url, author_name, comment_content with
            | Str page_url, Str author_name, Str comment_content =>
                let sanitizedPageUrl := sanitizeInput (trim page_url) in
                let sanitizedName := sanitizeInput (trim author_name) in
                let sanitizedContent := sanitizeInput (trim comment_content) in
                if available (DB env) then
                  match insert sanitizedPageUrl sanitizedName
                          sanitizedContent (DB env) with
                  | None => (failed, sent env)
                  | Some (row, rows) =>
                      let env1 := sent (withComments rows (id row) env) in
                      let last_row_id := toDouble (id row) in
                      let createdComment :=
                        byId last_row_id (comments (DB env1)) in
                      ({| Response.status := 201;
                          Response.body := CreatedJson createdComment;
                          Response.headers := jsonHeaders |}, sent env1)
                  end
                else (failed, sent env)
            | _, _, _ => (failed, env)
            end
      | _, _, _ => (failed, env)
      end
  end.

(** [env.ADMIN_SECRET_KEY || 'admin-secret-key'], written out at lines 205,
    293 and 378. *)
Definition adminSecret (env : Env) : jsstring :=
  match ADMIN_SECRET_KEY env with
  | Some key => if isEmpty key then js "admin-secret-key" else key
  | None => js "admin-secret-key"
  end.

(** [!secret || secret !== adminSecret] *)
Definition unauthorized (secret : option jsstring) (adminSecret : jsstring)
  : bool :=
  match secret with
  | None => true
  | Some s => isEmpty s || negb (streq s adminSecret)
  end.

(** [/^\d+$/.test(commentId)] *)
Definition allDigits (s : jsstring) : bool :=
  negb (isEmpty s) && forallb Url.isAsciiDigit s.

(** The bound text compared with the INTEGER column [id]. *)
Definition toInteger (digits : jsstring) : Z :=
  fold_left (fun n c => (10 * n + (Z.of_N c - 48))%Z) digits 0%Z.

(** [deleteComment(request, env, commentId)], lines 202-287. *)
Definition deleteComment (request : Request) (env : Env)
  (commentId : jsstring) : Response * Env :=
  let secret := get (js "secret") (searchParams request) in
  if unauthorized secret (adminSecret env) then
    (errorResponse 401 "Unauthorized", env)
  else if isEmpty commentId || negb (allDigits commentId) then
    (errorResponse 400 "Invalid comment ID", env)
  else if available (DB env) then
    let env1 := sent env in
    match byId (toInteger commentId) (comments (DB env1)) with
    | None => (errorResponse 404 "Comment not found", env1)
    | Some _ =>
        let rows :=
          filter (fun c => negb (Z.eqb (id c) (toInteger commentId)))
            (comments (DB env1)) in
        ({| Response.status := 200;
            Response.body := DeletedJson (js "Comment deleted successfully");
            Response.headers := jsonHeaders |},
         sent (withComments rows (sequence (DB env1)) env1))
    end
  else (errorResponse 500 "Failed to delete comment", sent env).

(** [getAllComments(request, env)], lines 290-340.  [ORDER BY created_at
    DESC] is ascending order of the negated key. *)
Definition getAllComments (request : Request) (env : Env) : Response * Env :=
  let secret := get (js "secret") (searchParams request) in
  if unauthorized secret (adminSecret env) then
    (errorResponse 401 "Unauthorized", env)
  else if available (DB env) then
    let results :=
      orderBy rt (fun c => (- created_at c)%Z) (comments (DB env)) in
    ({| Response.status := 200;
        Response.body := CommentsJson true results (List.length results);
        Response.headers := jsonHeaders |}, sent env)
  else (errorResponse 500 "Failed to retrieve comments", sent env).

(** [url.pathname.match(/^\/api\/comments\/(\d+)$/)]: the captured
    digits. *)
Definition deleteMatch (pathname : jsstring) : option jsstring :=
  let prefix := js "/api/comments/" in
  let rest := skipn (List.length prefix) pathname in
  if startsWith prefix pathname && allDigits rest then Some rest else None.

Definition plain (status : Z) (text : string)
  (headers : list (jsstring * jsstring)) : Response :=
  {| Response.status := status;
     Response.body := Text (js text);
     Response.headers := headers |}.

(** [fetch(request, env, ctx)], lines 344-407. *)
Definition fetch (request : Request) (env : Env) : Response * Env :=
  let secret := get (js "secret") (searchParams request) in
  if streq (method request) (js "OPTIONS") then (handleOptions, env)
  else if streq (pathname request) (js "/api/comments") then
    if streq (method request) (js "GET") then getComments request env
    else if streq (method request) (js "POST") then createComment request env
    else (plain 405 "Method not allowed" [], env)
  else if streq (pathname request) (js "/api/comments/all")
          && streq (method request) (js "GET") then
    getAllComments request env
  else
    match deleteMatch (pathname request),
          streq (method request) (js "DELETE") with
    | Some commentId, true => deleteComment request env commentId
    | _, _ =>
        if streq (pathname request) (js "/admin")
           && streq (method request) (js "GET") then
          if unauthorized secret (adminSecret env) then
            (plain 401 "Unauthorized" [], env)
          else
            ({| Response.status := 200;
                Response.body := Html AdminHTML;
                Response.headers := htmlHeaders |}, env)
        else if streq (pathname request) (js "/comment-widget")
                && streq (method request) (js "GET") then
          ({| Response.status := 200;
              Response.body :=
                Html (CommentWidgetHTML
                        match get (js "page_url") (searchParams request) with
                        | Some p => p
                        | None => []
                        end);
              Response.headers := htmlHeaders |}, env)
        else (plain 200 "Blog Comment System API" corsHeaders, env)
    end.

End Worker.

(* ================================================================== *)
(** ** A database that meets the contract of [Runtime] *)
(* ================================================================== *)

Section Engines.

Variable key : Comment -> Z.

(** Insertion before the first row with a larger key: rows with equal keys
    keep the order in which they arrive. *)
Fixpoint insertRow (c : Comment) (sorted : list Comment) : list Comment :=
  match sorted with
  | [] => [c]
  | d :: rest =>
      if (key c <? key d)%Z then c :: sorted else d :: insertRow c rest
  end.

Definition stableSort (rows : list Comment) : list Comment :=
  fold_left (fun sorted c => insertRow c sorted) rows [].

End Engines.

(** A runtime whose URL parser accepts no authority but the plain ones. *)
Definition noAuthority (scheme rest : jsstring) : option jsstring := None.

(** ** The sort meets the contract *)

Section EngineFacts.

Variable key : Comment -> Z.

Let le (a b : Comment) : Prop := (key a <= key b)%Z.

Lemma insertRow_perm c rows : Permutation (insertRow key c rows) (c :: rows).
Proof.
  induction rows as [|d rows IH]; simpl; [reflexivity|].
  destruct (key c <? key d)%Z; [reflexivity|].
  rewrite IH; apply perm_swap.
Qed.

Lemma insertRow_sorted c rows :
  StronglySorted le rows -> StronglySorted le (insertRow key c rows).
Proof.
  induction 1 as [|d rows Hs IH Hd]; simpl.
  - repeat constructor.
  - destruct (key c <? key d)%Z eqn:E.
    + apply Z.ltb_lt in E.
      constructor; [constructor; assumption|].
      constructor; [unfold le; lia|].
      eapply Forall_impl; [|exact Hd]; unfold le; intros; lia.
    + apply Z.ltb_ge in E.
      constructor; [assumption|].
      eapply Permutation_Forall; [symmetry; apply insertRow_perm|].
      constructor; [exact E | exact Hd].
Qed.

Lemma fold_insertRow_perm rows acc :
  Permutation (fold_left (fun s c => insertRow key c s) rows acc)
    (acc ++ rows).
Proof.
  revert acc; induction rows as [|c rows IH]; intros acc; simpl.
  - rewrite app_nil_r; reflexivity.
  - rewrite IH, insertRow_perm.
    rewrite (Permutation_middle acc rows c); reflexivity.
Qed.

Lemma fold_insertRow_sorted rows acc :
  StronglySorted le acc ->
  StronglySorted le (fold_left (fun s c => insertRow key c s) rows acc).
Proof.
  revert acc; induction rows as [|c rows IH]; intros acc H; simpl; auto.
  apply IH, insertRow_sorted, H.
Qed.

Lemma stableSort_perm rows : Permutation (stableSort key rows) rows.
Proof. apply (fold_insertRow_perm rows []). Qed.

Lemma stableSort_sorted rows : StronglySorted le (stableSort key rows).
Proof. apply fold_insertRow_sorted; constructor. Qed.

End EngineFacts.

(** A database that keeps rows with equal keys in rowid order. *)
Definition stableRuntime : Runtime :=
  {| authority := noAuthority;
     orderBy := stableSort;
     orderBy_perm := stableSort_perm;
     orderBy_sorted := stableSort_sorted |}.

(* ================================================================== *)
(** ** Notions used in the statements *)
(* ================================================================== *)

(** A string that neither begins nor ends with white space. *)
Definition trimmed (s : jsstring) : Prop :=
  match s with [] => True | c :: _ => isWhiteSpace c = false end
  /\ match rev s with [] => True | c :: _ => isWhiteSpace c = false end.

(** The sanitizer of the specification, character by character: the five
    characters and nothing else. *)
Definition escapeChar5 (c : N) : jsstring :=
  if (c =? AMP)%N then js "&amp;" else escapeChar c.

(** The routes behind the admin secret: [GET /api/comments/all],
    [DELETE /api/comments/<digits>] and [GET /admin]. *)
Definition adminGated (request : Request) : bool :=
  (streq (method request) (js "GET")
   && streq (pathname request) (js "/api/comments/all"))
  || (streq (method request) (js "DELETE")
      && match deleteMatch (pathname request) with
         | Some _ => true
         | None => false
         end)
  || (streq (method request) (js "GET")
      && streq (pathname request) (js "/admin")).

(** The fallback of [fetch], line 404. *)
Definition defaultResponse : Response :=
  plain 200 "Blog Comment System API" corsHeaders.

(** The resolution of the admin secret as the specification and the README
    word it: the key [ADMIN_SECRET_KEY] of the KV namespace first, then the
    environment variable, then the development default. *)
Definition resolve_spec (env : Env) : jsstring :=
  match get (js "ADMIN_SECRET_KEY") (SECRETS env) with
  | Some stored => stored
  | None => adminSecret env
  end.

(** The rules in the words of the specification. *)
Definition textOk (limit : nat) (v : value) : Prop :=
  exists s, v = Str s /\ 1 <= List.length (trim s) <= limit.

Definition pageUrlOk (rt : Runtime) (v : value) : Prop :=
  truthy v = true
  /\ exists s url, toString v = Some s
                   /\ Url.parse (authority rt) s = Some url.

(** Order by [created_at], rows of one second by [id]. *)
Definition byTimeThenId (a b : Comment) : Prop :=
  (created_at a < created_at b
   \/ (created_at a = created_at b /\ id a <= id b))%Z.

(** The row a valid submission adds. *)
Definition createdRow (env : Env) (p a c : jsstring) : Comment :=
  {| id := (largestRowid (DB env) + 1)%Z;
     page_url := storedText (sanitizeInput p);
     author_name := storedText (sanitizeInput a);
     comment_content := storedText (sanitizeInput c);
     created_at := clock (DB env);
     status := js "approved" |}.

(** The most code units one code unit of bound text can come back as. *)
Definition units (c : N) : nat :=
  if isHighSurrogate c || isLowSurrogate c then 3 else 1.

(** Text without a surrogate code unit outside a pair: D1 returns it as it
    was bound. *)
Definition wellFormed (s : jsstring) : Prop := storedText s = s.

(** The next rowid is an integer the worker can read back: at most 2^53. *)
Definition exactIds (db : D1) : Prop := (largestRowid db < MAX_EXACT)%Z.

(* ================================================================== *)
(** ** Requests and environments used as examples *)
(* ================================================================== *)

(** An empty database that answers. *)
Definition emptyDB : D1 :=
  {| comments := []; sequence := 0; clock := 1700000000;
     available := true; statements := 0 |}.

Definition someComment (n created : Z) (url : string) : Comment :=
  {| id := n; page_url := js url; author_name := js "Ann";
     comment_content := js "Hello"; created_at := created;
     status := js "approved" |}.

(** A worker without configured secret whose table holds one row. *)
Definition devEnv : Env :=
  {| DB := {| comments := [someComment 1 1700000000 "https://example.com/post"];
              sequence := 1; clock := 1700000100;
              available := true; statements := 0 |};
     SECRETS := [];
     ADMIN_SECRET_KEY := None |}.

Definition downEnv : Env :=
  {| DB := {| comments := []; sequence := 0; clock := 1700000000;
              available := false; statements := 0 |};
     SECRETS := [];
     ADMIN_SECRET_KEY := None |}.

(** An answering database with the given rows and AUTOINCREMENT
    counter. *)
Definition countingFrom (rows : list Comment) (counter : Z) : Env :=
  {| DB := {| comments := rows; sequence := counter; clock := 1700000100;
              available := true; statements := 0 |};
     SECRETS := [];
     ADMIN_SECRET_KEY := None |}.

Definition freshEnv : Env :=
  {| DB := emptyDB; SECRETS := []; ADMIN_SECRET_KEY := None |}.

(** A worker whose KV namespace and environment variable both hold a
    secret. *)
Definition kvEnv : Env :=
  {| DB := emptyDB;
     SECRETS := [(js "ADMIN_SECRET_KEY", js "kv-secret-1234")];
     ADMIN_SECRET_KEY := Some (js "env-secret-5678") |}.

(** Four rows: three approved comments of one page, two of them written in
    the same second with a later one between them, and a comment of another
    page. *)
Definition shuffledEnv : Env :=
  {| DB := {| comments := [someComment 1 1700000000 "https://example.com/post";
                           someComment 2 1700000050 "https://example.com/post";
                           someComment 3 1700000000 "https://example.com/post";
                           someComment 4 1700000000 "https://example.com/other"];
              sequence := 4; clock := 1700000100;
              available := true; statements := 0 |};
     SECRETS := [];
     ADMIN_SECRET_KEY := None |}.

(** Two approved comments of one page written in the same second. *)
Definition sameSecondEnv : Env :=
  {| DB := {| comments := [someComment 1 1700000000 "https://example.com/post";
                           someComment 2 1700000000 "https://example.com/post"];
              sequence := 2; clock := 1700000100;
              available := true; statements := 0 |};
     SECRETS := [];
     ADMIN_SECRET_KEY := None |}.

Definition getRequest (path : string) (params : list (string * string))
  : Request :=
  {| method := js "GET"; pathname := js path;
     searchParams := map (fun kv => (js (fst kv), js (snd kv))) params;
     json := None |}.

Definition deleteRequest (commentId : string) (secret : option string)
  : Request :=
  {| method := js "DELETE";
     pathname := js ("/api/comments/" ++ commentId);
     searchParams :=
       match secret with
       | Some s => [(js "secret", js s)]
       | None => []
       end;
     json := None |}.

Definition postRequest (members : list (string * value)) : Request :=
  {| method := js "POST"; pathname := js "/api/comments";
     searchParams := [];
     json := Some (Object (map (fun kv => (js (fst kv), snd kv)) members)) |}.

(** A submission that breaks all three rules, sent while the database is
    down. *)
Definition badSubmission : Request :=
  postRequest [ ("page_url", Str (js "not a url"));
                ("comment_content", Str (repeat 120%N 1001)) ]%string.

(** A submission without [author_name] whose [page_url] cannot be
    converted to a string: an array holding an object with a member
    [toString]. *)
Definition unprintableSubmission : Request :=
  postRequest [ ("page_url",
                 Array [Str (js "http://a.b/");
                        Object [(js "toString", Number false (js "1"))]]);
                ("comment_content", Str (js "Hello")) ]%string.

(** A valid submission for a page whose URL holds an apostrophe. *)
Definition quotedPost : Request :=
  postRequest [ ("page_url", Str (js "https://example.com/what's-new"));
                ("author_name", Str (js "Ann"));
                ("comment_content", Str (js "Nice <3")) ]%string.

Definition quotedGet : Request :=
  getRequest "/api/comments"
    [("page_url", "https://example.com/what's-new")]%string.

(** The row the submission leaves in the table. *)
Definition quotedRow : Comment :=
  {| id := 1;
     page_url := js "https://example.com/what&#39;s-new";
     author_name := js "Ann";
     comment_content := js "Nice &lt;3";
     created_at := 1700000000;
     status := js "approved" |}.

Definition plainPost : Request :=
  postRequest [ ("page_url", Str (js "https://example.com/post"));
                ("author_name", Str (js "  Ann "));
                ("comment_content", Str (js "1 < 2")) ]%string.

Definition plainGet : Request :=
  getRequest "/api/comments" [("page_url", "https://example.com/post")]%string.

(** A post, the deletion of the row that was there, and a second post. *)
Definition postDeletePost : list Request :=
  [ plainPost;
    deleteRequest "1" (Some "admin-secret-key"%string);
    plainPost ].

(** A name of a hundred double quotes and a comment of a thousand. *)
Definition quotesPost : Request :=
  postRequest [ ("page_url", Str (js "https://example.com/post"));
                ("author_name", Str (repeat DQUOTE 100));
                ("comment_content", Str (repeat DQUOTE 1000)) ]%string.

(** A submission whose [page_url] is an array holding one URL. *)
Definition arrayPost : Request :=
  postRequest [ ("page_url", Array [Str (js "https://example.com/post")]);
                ("author_name", Str (js "Ann"));
                ("comment_content", Str (js "Hello")) ]%string.

(** The listing of the page URL as [quotedPost] leaves it in the table. *)
Definition escapedGet : Request :=
  getRequest "/api/comments"
    [("page_url", "https://example.com/what&#39;s-new")]%string.

(* ================================================================== *)
(** ** The browser script, [comment-system.js] *)
(* ================================================================== *)

(** The parts of the script that compute: the form check, the request a
    submitted form becomes, the request that loads the comments, and the
    relative time shown beside a comment.  What the browser provides is
    a parameter: how a date string is read ([new Date(dateString)], in
    milliseconds, [None] for an invalid date) and how a date is printed for
    the reader's locale ([formatDate]). *)
Module Client.

(** [String(n)] for an integer. *)
Definition decimal (n : Z) : jsstring :=
  js (NilZero.string_of_int (Z.to_int n)).

(** [CONFIG.MAX_NAME_LENGTH] and [CONFIG.MAX_COMMENT_LENGTH], lines 11-12. *)
Definition MAX_NAME_LENGTH : nat := 100.
Definition MAX_COMMENT_LENGTH : nat := 1000.

(** [validateCommentForm(authorName, commentContent)], lines 104-122:
    the first failed check, or [null]. *)
Definition validateCommentForm (authorName commentContent : jsstring)
  : option jsstring :=
  if isEmpty authorName then Some (js "Please enter your name.")
  else if Nat.ltb MAX_NAME_LENGTH (List.length authorName) then
    Some (js "Name must be " ++ decimal (Z.of_nat MAX_NAME_LENGTH)
          ++ js " characters or less.")
  else if isEmpty commentContent then Some (js "Please enter a comment.")
  else if Nat.ltb MAX_COMMENT_LENGTH (List.length commentContent) then
    Some (js "Comment must be " ++ decimal (Z.of_nat MAX_COMMENT_LENGTH)
          ++ js " characters or less.")
  else None.

(** What a submitted form leads to: a message shown in the page, or a
    request sent to the worker. *)
Inductive Submitted :=
| Shown (message : jsstring)
| Posted (request : Request).

(** [handleFormSubmit(event)], lines 57-101, up to the [fetch]: the two
    fields are trimmed, checked, and posted with [CONFIG.PAGE_URL] as a
    JSON body to [/api/comments]. *)
Definition handleFormSubmit (PAGE_URL nameValue contentValue : jsstring)
  : Submitted :=
  let authorName := trim nameValue in
  let commentContent := trim contentValue in
  match validateCommentForm authorName commentContent with
  | Some validationError => Shown validationError
  | None =>
      Posted {| method := js "POST";
                pathname := js "/api/comments";
                searchParams := [];
                json := Some (Object
                                [ (js "page_url", Str PAGE_URL);
                                  (js "author_name", Str authorName);
                                  (js "comment_content", Str commentContent) ])
             |}
  end.

(** The request of [loadComments()], line 217: the page URL goes through
    [encodeURIComponent] and comes out of [searchParams.get] as it was. *)
Definition loadComments (PAGE_URL : jsstring) : Request :=
  {| method := js "GET";
     pathname := js "/api/comments";
     searchParams := [(js "page_url", PAGE_URL)];
     json := None |}.

Section RelativeTime.

Variable parseDate : jsstring -> option Z.
Variable formatDate : jsstring -> jsstring.

(** [n !== 1 ? 's' : ''] *)
Definition plural (n : Z) : jsstring :=
  if (n =? 1)%Z then [] else js "s".

(** [formatRelativeTime(dateString)], lines 316-335, at the time [now]
    (milliseconds).  With an invalid date every comparison fails and the
    last branch is taken. *)
Definition formatRelativeTime (now : Z) (dateString : jsstring) : jsstring :=
  match parseDate dateString with
  | None => formatDate dateString
  | Some date =>
      let diffInSeconds := ((now - date) / 1000)%Z in
      if (diffInSeconds <? 60)%Z then js "just now"
      else if (diffInSeconds <? 3600)%Z then
        let minutes := (diffInSeconds / 60)%Z in
        decimal minutes ++ js " minute" ++ plural minutes ++ js " ago"
      else if (diffInSeconds <? 86400)%Z then
        let hours := (diffInSeconds / 3600)%Z in
        decimal hours ++ js " hour" ++ plural hours ++ js " ago"
      else if (diffInSeconds <? 604800)%Z then
        let days := (diffInSeconds / 86400)%Z in
        decimal days ++ js " day" ++ plural days ++ js " ago"
      else formatDate dateString
  end.

End RelativeTime.

End Client.

(* ================================================================== *)
(** ** Runs of the worker and notions used in further statements *)
(* ================================================================== *)

(** The worker serving requests one after the other. *)
Fixpoint serve (rt : Runtime) (requests : list Request) (env : Env)
  : list Response * Env :=
  match requests with
  | [] => ([], env)
  | request :: rest =>
      let (response, env1) := fetch rt request env in
      let (responses, env2) := serve rt rest env1 in
      (response :: responses, env2)
  end.

(** The ids of the comments that a list of responses reports as created. *)
Definition createdIds (responses : list Response) : list Z :=
  flat_map (fun r => match Response.body r with
                     | CreatedJson (Some c) => [id c]
                     | _ => []
                     end) responses.

(** Text without any of the four characters the sanitizer replaces. *)
Definition clean (s : jsstring) : Prop :=
  forall c, In c s -> ~ In c [LT; GT; DQUOTE; SQUOTE].

(** A row as the worker writes it: every text column trimmed and clean. *)
Definition sanitizedRow (c : Comment) : Prop :=
  clean (page_url c) /\ trimmed (page_url c)
  /\ clean (author_name c) /\ trimmed (author_name c)
  /\ clean (comment_content c) /\ trimmed (comment_content c)
  /\ status c = js "approved".

(** The primary key: no two rows share an id, and no id exceeds the
    AUTOINCREMENT counter. *)
Definition keyed (db : D1) : Prop :=
  NoDup (map id (comments db))
  /\ Forall (fun c => (id c <= sequence db)%Z) (comments db).

(** A body written with [JSON.stringify]. *)
Definition isJson (b : Body) : bool :=
  match b with
  | ErrorJson _ | CommentsJson _ _ _ | CreatedJson _ | DeletedJson _ => true
  | NoBody | Text _ | Html _ => false
  end.

(** A response that reports a created or a deleted comment. *)
Definition reportsChange (response : Response) : bool :=
  match Response.body response with
  | CreatedJson _ | DeletedJson _ => true
  | _ => false
  end.

(** What one request can do to the environment: nothing; statements sent
    that change no row; one row appended by a [POST] answered 201 with the
    row that has the id the worker read; the rows of one id removed by a
    [DELETE] answered 200. *)
Inductive Effect (request : Request) (env : Env) : Response -> Env -> Prop :=
| NoStatement response :
    reportsChange response = false -> Effect request env response env
| NoChange response :
    reportsChange response = false -> Effect request env response (sent env)
| Inserted p a c :
    method request = js "POST" ->
    pathname request = js "/api/comments" ->
    available (DB env) = true ->
    (largestRowid (DB env) < MAX_ROWID)%Z ->
    Effect request env
      {| Response.status := 201;
         Response.body :=
           CreatedJson (byId (toDouble (largestRowid (DB env) + 1))
                          (comments (DB env) ++ [createdRow env p a c]));
         Response.headers := jsonHeaders |}
      (sent (sent (withComments
                     (comments (DB env) ++ [createdRow env p a c])
                     (largestRowid (DB env) + 1) env)))
| Removed n :
    method request = js "DELETE" ->
    available (DB env) = true ->
    Effect request env
      {| Response.status := 200;
         Response.body := DeletedJson (js "Comment deleted successfully");
         Response.headers := jsonHeaders |}
      (sent (withComments
               (filter (fun c => negb (Z.eqb (id c) n)) (comments (DB env)))
               (sequence (DB env)) (sent env))).

(** The shape every response of the worker has: one of seven status
    codes; a JSON body goes with the JSON content type; the worker sets the
    CORS headers, except on the two plain-text refusals; an error body goes
    with a status of 400 or more, every other JSON or HTML body with its
    success status; and [count] is the number of comments listed. *)
Definition wellFormedResponse (r : Response) : Prop :=
  In (Response.status r) [200; 201; 400; 401; 404; 405; 500]%Z
  /\ (isJson (Response.body r) = true -> Response.headers r = jsonHeaders)
  /\ (incl corsHeaders (Response.headers r)
      \/ (Response.status r = 405%Z
          /\ Response.body r = Text (js "Method not allowed"))
      \/ (Response.status r = 401%Z
          /\ Response.body r = Text (js "Unauthorized")))
  /\ match Response.body r with
     | ErrorJson _ => (400 <= Response.status r)%Z
     | CommentsJson _ results count =>
         Response.status r = 200%Z /\ count = List.length results
     | CreatedJson _ => Response.status r = 201%Z
     | DeletedJson _ | Html _ | NoBody => Response.status r = 200%Z
     | Text _ => In (Response.status r) [200; 401; 405]%Z
     end.

(** What a response may be while the database fails: no list, no created
    comment, no deletion, no 404. *)
Definition failureShape (r : Response) : Prop :=
  match Response.body r with
  | ErrorJson _ => In (Response.status r) [400; 401; 500]%Z
  | CommentsJson _ _ _ | CreatedJson _ | DeletedJson _ => False
  | NoBody | Text _ | Html _ => True
  end.

(* ================================================================== *)
(** * Properties *)
(* ================================================================== *)

(** ** Strings *)

Lemma streq_eq (a b : jsstring) : streq a b = true <-> a = b.
Proof.
  revert b; induction a as [|x a IH]; intros [|y b]; simpl; split;
    try congruence; try reflexivity.
  - intros H; apply andb_prop in H as [Hxy Hab].
    apply N.eqb_eq in Hxy; apply IH in Hab; congruence.
  - intros H; inversion H; subst.
    rewrite N.eqb_refl; simpl; apply IH; reflexivity.
Qed.

Lemma streq_refl (a : jsstring) : streq a a = true.
Proof. apply streq_eq; reflexivity. Qed.

Lemma streq_neq (a b : jsstring) : streq a b = false <-> a <> b.
Proof.
  split.
  - intros H E; apply streq_eq in E; congruence.
  - intros H; destruct (streq a b) eqn:E; [|reflexivity].
    apply streq_eq in E; contradiction.
Qed.

(** ** [trim] *)

Lemma trimStart_split (s : jsstring) :
  exists pre, s = pre ++ trimStart s /\ forallb isWhiteSpace pre = true.
Proof.
  induction s as [|c s [pre [E W]]]; simpl.
  - exists []; auto.
  - destruct (isWhiteSpace c) eqn:Hc.
    + exists (c :: pre); simpl; rewrite Hc, W; split;
        [f_equal; exact E | reflexivity].
    + exists []; auto.
Qed.

Lemma trimStart_head (s : jsstring) :
  match trimStart s with
  | [] => True
  | c :: _ => isWhiteSpace c = false
  end.
Proof.
  induction s as [|c s IH]; simpl; auto.
  destruct (isWhiteSpace c) eqn:Hc; auto.
Qed.

Lemma trimEnd_split (s : jsstring) :
  exists post, s = trimEnd s ++ post /\ forallb isWhiteSpace post = true.
Proof.
  unfold trimEnd.
  destruct (trimStart_split (rev s)) as [pre [E W]].
  exists (rev pre); split.
  - rewrite <- rev_app_distr, <- E, rev_involutive; reflexivity.
  - rewrite forallb_forall in *; intros x Hx; apply W, in_rev, Hx.
Qed.

Lemma trimEnd_last (s : jsstring) :
  match rev (trimEnd s) with
  | [] => True
  | c :: _ => isWhiteSpace c = false
  end.
Proof. unfold trimEnd; rewrite rev_involutive; apply trimStart_head. Qed.

Lemma trim_trimmed (s : jsstring) : trimmed (trim s).
Proof.
  unfold trimmed, trim; split; [|apply trimEnd_last].
  pose proof (trimStart_head s) as Hh.
  destruct (trimEnd_split (trimStart s)) as [post [E _]].
  destruct (trimEnd (trimStart s)) as [|c t]; [exact I|].
  rewrite E in Hh; exact Hh.
Qed.

Lemma trim_split (s : jsstring) :
  exists pre post,
    s = pre ++ trim s ++ post
    /\ forallb isWhiteSpace pre = true
    /\ forallb isWhiteSpace post = true.
Proof.
  destruct (trimStart_split s) as [pre [E W]].
  destruct (trimEnd_split (trimStart s)) as [post [E' W']].
  exists pre, post; unfold trim; rewrite <- E'; auto.
Qed.

Lemma trimStart_id (s : jsstring) :
  match s with [] => True | c :: _ => isWhiteSpace c = false end ->
  trimStart s = s.
Proof. destruct s as [|c s]; simpl; auto; intros ->; reflexivity. Qed.

Lemma trim_id (s : jsstring) : trimmed s -> trim s = s.
Proof.
  intros [Hh Hl]; unfold trim, trimEnd.
  rewrite (trimStart_id s Hh), (trimStart_id (rev s) Hl).
  apply rev_involutive.
Qed.

Lemma trim_idempotent (s : jsstring) : trim (trim s) = trim s.
Proof. apply trim_id, trim_trimmed. Qed.

(** ** The sanitizer replaces character by character *)

Lemma replaceAll_flat_map c by_ (f : N -> jsstring) (s : jsstring) :
  replaceAll c by_ (flat_map f s)
  = flat_map (fun x => replaceAll c by_ (f x)) s.
Proof.
  unfold replaceAll; induction s as [|x s IH]; simpl; [reflexivity|].
  rewrite flat_map_app, IH; reflexivity.
Qed.

Lemma replaceAll_as_flat_map c by_ (s : jsstring) :
  replaceAll c by_ s = flat_map (fun x => replaceAll c by_ [x]) s.
Proof.
  unfold replaceAll; apply flat_map_ext; intros x; simpl.
  rewrite app_nil_r; reflexivity.
Qed.

Lemma escape_passes (x : N) :
  replaceAll SQUOTE (js "&#39;")
    (replaceAll DQUOTE (js "&quot;")
       (replaceAll GT (js "&gt;") (replaceAll LT (js "&lt;") [x])))
  = escapeChar x.
Proof.
  unfold escapeChar.
  destruct (x =? LT)%N eqn:E1.
  { apply N.eqb_eq in E1; subst; reflexivity. }
  destruct (x =? GT)%N eqn:E2.
  { apply N.eqb_eq in E2; subst; reflexivity. }
  destruct (x =? DQUOTE)%N eqn:E3.
  { apply N.eqb_eq in E3; subst; reflexivity. }
  destruct (x =? SQUOTE)%N eqn:E4.
  { apply N.eqb_eq in E4; subst; reflexivity. }
  unfold replaceAll; simpl.
  rewrite E1; simpl; rewrite E2; simpl; rewrite E3; simpl; rewrite E4.
  reflexivity.
Qed.

Lemma sanitizeInput_pointwise (input : jsstring) :
  sanitizeInput input = flat_map escapeChar (trim input).
Proof.
  unfold sanitizeInput.
  rewrite (replaceAll_as_flat_map LT).
  rewrite !replaceAll_flat_map.
  apply flat_map_ext; intros x; apply escape_passes.
Qed.

Lemma sanitize_spec_pointwise (text : jsstring) :
  sanitize_spec text = flat_map escapeChar5 (trim text).
Proof.
  unfold sanitize_spec.
  rewrite (replaceAll_as_flat_map AMP).
  rewrite !replaceAll_flat_map.
  apply flat_map_ext; intros x; unfold escapeChar5.
  destruct (x =? AMP)%N eqn:E.
  - apply N.eqb_eq in E; subst; reflexivity.
  - replace (replaceAll AMP (js "&amp;") [x]) with [x]
      by (unfold replaceAll; simpl; rewrite E; reflexivity).
    apply escape_passes.
Qed.

(** C1, as the claim states it, fails: the source has no pass for the
    ampersand, so ["Tom & Jerry"] is stored as it is, where the five-character
    sanitizer of the specification gives ["Tom &amp; Jerry"]. *)
Lemma sanitizeInput_keeps_ampersand :
  sanitizeInput (js "Tom & Jerry") = js "Tom & Jerry"
  /\ sanitize_spec (js "Tom & Jerry") = js "Tom &amp; Jerry"
  /\ sanitizeInput (js "Tom & Jerry") <> sanitize_spec (js "Tom & Jerry").
Proof. repeat split; discriminate. Qed.

(** C1 (amended): for every input, [sanitizeInput] trims leading and
    trailing white space and then replaces, character by character, exactly
    the four characters [<], [>], double quote and single quote by [&lt;],
    [&gt;], [&quot;] and [&#39;]; every other character, the ampersand
    included, is kept, so no reference produced by one pass is changed by
    another. *)
Theorem sanitizeInput_trims_then_escapes_four (input : jsstring) :
  sanitizeInput input = flat_map escapeChar (trim input)
  /\ trimmed (trim input)
  /\ (exists pre post,
         input = pre ++ trim input ++ post
         /\ forallb isWhiteSpace pre = true
         /\ forallb isWhiteSpace post = true)
  /\ escapeChar LT = js "&lt;"
  /\ escapeChar GT = js "&gt;"
  /\ escapeChar DQUOTE = js "&quot;"
  /\ escapeChar SQUOTE = js "&#39;"
  /\ (forall c, ~ In c [LT; GT; DQUOTE; SQUOTE] -> escapeChar c = [c]).
Proof.
  split; [apply sanitizeInput_pointwise|].
  split; [apply trim_trimmed|].
  split; [apply trim_split|].
  repeat (split; [reflexivity|]).
  intros c Hc; unfold escapeChar.
  repeat match goal with
         | |- context [(c =? ?k)%N] =>
             destruct (N.eqb_spec c k) as [->|_];
             [exfalso; apply Hc; simpl; tauto|]
         end.
  reflexivity.
Qed.

Lemma sanitizeInput_trims_then_escapes_four_witness :
  escapeChar AMP = [AMP]
  /\ sanitizeInput (js "  <b>Tom & 'Jerry'</b> ")
     = js "&lt;b&gt;Tom & &#39;Jerry&#39;&lt;/b&gt;".
Proof.
  destruct (sanitizeInput_trims_then_escapes_four
              (js "  <b>Tom & 'Jerry'</b> "))
    as (Hsan & _ & _ & _ & _ & _ & _ & Hother).
  split.
  - apply Hother; simpl; intros [H|[H|[H|[H|[]]]]]; discriminate H.
  - rewrite Hsan; reflexivity.
Defined.

(** ** Routing *)

(** Comparisons of literals are decided by evaluation. *)
Ltac literals :=
  repeat match goal with
         | |- context [streq (js ?a) (js ?b)] =>
             let v := eval vm_compute in (streq (js a) (js b)) in
             change (streq (js a) (js b)) with v
         | |- context [deleteMatch (js ?a)] =>
             let v := eval vm_compute in (deleteMatch (js a)) in
             change (deleteMatch (js a)) with v
         end;
  rewrite ?andb_false_r, ?andb_true_r;
  cbv beta iota delta [andb orb negb].

Lemma deleteMatch_digits (commentId : jsstring) :
  deleteMatch (js "/api/comments/" ++ commentId)
  = if allDigits commentId then Some commentId else None.
Proof. reflexivity. Qed.

Lemma deleteMatch_Some (pathname commentId : jsstring) :
  deleteMatch pathname = Some commentId ->
  allDigits commentId = true
  /\ streq pathname (js "/api/comments") = false
  /\ streq pathname (js "/admin") = false
  /\ streq pathname (js "/api/comments/all") = false.
Proof.
  unfold deleteMatch; intros H.
  destruct (startsWith (js "/api/comments/") pathname) eqn:Hs; [|discriminate].
  destruct (allDigits (skipn _ pathname)) eqn:Hd; [|discriminate].
  simpl in H; injection H as <-.
  split; [exact Hd|].
  unfold startsWith in Hs; apply streq_eq in Hs.
  repeat split; apply streq_neq; intros ->; try discriminate.
Qed.

Lemma fetch_delete rt request env commentId :
  method request = js "DELETE" ->
  deleteMatch (pathname request) = Some commentId ->
  fetch rt request env = deleteComment request env commentId.
Proof.
  intros Hm Hp; destruct (deleteMatch_Some _ _ Hp) as (_ & H1 & _ & _).
  unfold fetch; rewrite Hm, Hp, H1; literals; reflexivity.
Qed.

Lemma fetch_getAll rt request env :
  method request = js "GET" ->
  pathname request = js "/api/comments/all" ->
  fetch rt request env = getAllComments rt request env.
Proof. intros Hm Hp; unfold fetch; rewrite Hm, Hp; literals; reflexivity. Qed.

Lemma fetch_admin rt request env :
  method request = js "GET" ->
  pathname request = js "/admin" ->
  fetch rt request env
  = if unauthorized (get (js "secret") (searchParams request))
         (adminSecret env)
    then (plain 401 "Unauthorized" [], env)
    else ({| Response.status := 200; Response.body := Html AdminHTML;
             Response.headers := htmlHeaders |}, env).
Proof. intros Hm Hp; unfold fetch; rewrite Hm, Hp; literals; reflexivity. Qed.

Lemma fetch_getComments rt request env :
  method request = js "GET" ->
  pathname request = js "/api/comments" ->
  fetch rt request env = getComments rt request env.
Proof. intros Hm Hp; unfold fetch; rewrite Hm, Hp; literals; reflexivity. Qed.

Lemma fetch_createComment rt request env :
  method request = js "POST" ->
  pathname request = js "/api/comments" ->
  fetch rt request env = createComment rt request env.
Proof. intros Hm Hp; unfold fetch; rewrite Hm, Hp; literals; reflexivity. Qed.

(** ** The admin secret *)

Lemma adminSecret_nonempty env : isEmpty (adminSecret env) = false.
Proof.
  unfold adminSecret; destruct (ADMIN_SECRET_KEY env) as [k|]; [|reflexivity].
  destruct (isEmpty k) eqn:E; [reflexivity | exact E].
Qed.

Lemma authorized_iff secret env :
  unauthorized secret (adminSecret env) = false
  <-> secret = Some (adminSecret env).
Proof.
  unfold unauthorized; destruct secret as [s|]; split; try discriminate.
  - intros H; apply orb_false_elim in H as [_ H].
    apply negb_false_iff, streq_eq in H; congruence.
  - intros H; injection H as ->.
    rewrite adminSecret_nonempty, streq_refl; reflexivity.
Qed.

Lemma unauthorized_iff secret env :
  unauthorized secret (adminSecret env) = true
  <-> secret <> Some (adminSecret env).
Proof.
  rewrite <- authorized_iff.
  destruct (unauthorized secret (adminSecret env)); split; congruence.
Qed.

Lemma adminSecret_default env :
  ADMIN_SECRET_KEY env = None \/ ADMIN_SECRET_KEY env = Some [] ->
  adminSecret env = js "admin-secret-key".
Proof. unfold adminSecret; intros [-> | ->]; reflexivity. Qed.

(** ** [deleteComment] *)

Lemma deleteComment_unauthorized request env commentId :
  get (js "secret") (searchParams request) <> Some (adminSecret env) ->
  deleteComment request env commentId
  = (errorResponse 401 "Unauthorized", env).
Proof.
  intros H; apply unauthorized_iff in H.
  unfold deleteComment; rewrite H; reflexivity.
Qed.

Lemma allDigits_nonempty s : allDigits s = true -> isEmpty s = false.
Proof. destruct s; [discriminate | reflexivity]. Qed.

Lemma deleteComment_authorized request env commentId :
  get (js "secret") (searchParams request) = Some (adminSecret env) ->
  allDigits commentId = true ->
  deleteComment request env commentId
  = if available (DB env) then
      match byId (toInteger commentId) (comments (DB env)) with
      | None => (errorResponse 404 "Comment not found", sent env)
      | Some _ =>
          ({| Response.status := 200;
              Response.body := DeletedJson (js "Comment deleted successfully");
              Response.headers := jsonHeaders |},
           sent (withComments
                   (filter (fun c => negb (Z.eqb (id c) (toInteger commentId)))
                      (comments (DB env)))
                   (sequence (DB env)) (sent env)))
      end
    else (errorResponse 500 "Failed to delete comment", sent env).
Proof.
  intros H Hd; apply authorized_iff in H.
  unfold deleteComment.
  rewrite H, Hd, (allDigits_nonempty _ Hd); reflexivity.
Qed.

Lemma deleteComment_authorized_status request env commentId :
  get (js "secret") (searchParams request) = Some (adminSecret env) ->
  allDigits commentId = true ->
  In (Response.status (fst (deleteComment request env commentId)))
    [200; 404; 500]%Z.
Proof.
  intros H Hd; rewrite (deleteComment_authorized _ _ _ H Hd).
  destruct (available (DB env)); [|simpl; tauto].
  destruct (byId _ _); simpl; tauto.
Qed.

(** C5: on [DELETE /api/comments/<digits>] the secret is checked before the
    row is looked up.  A missing or wrong secret gives 401 whatever the
    table holds, and the database is not asked; the right secret with an id
    that no row has gives 404 (the database answering). *)
Theorem delete_checks_secret_before_existence
  rt request env commentId :
  method request = js "DELETE" ->
  pathname request = js "/api/comments/" ++ commentId ->
  allDigits commentId = true ->
  (get (js "secret") (searchParams request) <> Some (adminSecret env) ->
   fetch rt request env = (errorResponse 401 "Unauthorized", env))
  /\ (get (js "secret") (searchParams request) = Some (adminSecret env) ->
      available (DB env) = true ->
      byId (toInteger commentId) (comments (DB env)) = None ->
      fetch rt request env
      = (errorResponse 404 "Comment not found", sent env)).
Proof.
  intros Hm Hp Hd.
  assert (Hf : fetch rt request env = deleteComment request env commentId).
  { apply fetch_delete; [exact Hm|].
    rewrite Hp, deleteMatch_digits, Hd; reflexivity. }
  rewrite Hf; split.
  - apply deleteComment_unauthorized.
  - intros Hs Ha Hn.
    rewrite (deleteComment_authorized _ _ _ Hs Hd), Ha, Hn; reflexivity.
Qed.

Lemma delete_checks_secret_before_existence_witness :
  fetch stableRuntime (deleteRequest "1" (Some "guess"%string)) devEnv
  = (errorResponse 401 "Unauthorized", devEnv)
  /\ fetch stableRuntime (deleteRequest "9999999" None) devEnv
     = (errorResponse 401 "Unauthorized", devEnv)
  /\ fetch stableRuntime (deleteRequest "9999999" (Some "admin-secret-key"%string))
       devEnv
     = (errorResponse 404 "Comment not found", sent devEnv).
Proof.
  split; [|split].
  - apply (delete_checks_secret_before_existence stableRuntime
             (deleteRequest "1" (Some "guess"%string)) devEnv (js "1"));
      try reflexivity; discriminate.
  - apply (delete_checks_secret_before_existence stableRuntime
             (deleteRequest "9999999" None) devEnv (js "9999999"));
      try reflexivity; discriminate.
  - apply (delete_checks_secret_before_existence stableRuntime
             (deleteRequest "9999999" (Some "admin-secret-key"%string)) devEnv
             (js "9999999")); reflexivity.
Defined.

Lemma deleteComment_status request env commentId :
  allDigits commentId = true ->
  In (Response.status (fst (deleteComment request env commentId)))
    [401; 200; 404; 500]%Z.
Proof.
  intros Hd; unfold deleteComment.
  rewrite Hd, (allDigits_nonempty _ Hd).
  destruct (unauthorized _ _); [simpl; tauto|].
  destruct (available (DB env)); [|simpl; tauto].
  cbv beta iota zeta delta [orb negb].
  destruct (byId _ _); simpl; tauto.
Qed.

Lemma getAllComments_unauthorized rt request env :
  get (js "secret") (searchParams request) <> Some (adminSecret env) ->
  getAllComments rt request env = (errorResponse 401 "Unauthorized", env).
Proof.
  intros H; apply unauthorized_iff in H.
  unfold getAllComments; rewrite H; reflexivity.
Qed.

Lemma getAllComments_authorized rt request env :
  get (js "secret") (searchParams request) = Some (adminSecret env) ->
  getAllComments rt request env
  = if available (DB env) then
      let results :=
        orderBy rt (fun c => (- created_at c)%Z) (comments (DB env)) in
      ({| Response.status := 200;
          Response.body := CommentsJson true results (List.length results);
          Response.headers := jsonHeaders |}, sent env)
    else (errorResponse 500 "Failed to retrieve comments", sent env).
Proof.
  intros H; apply authorized_iff in H.
  unfold getAllComments; rewrite H; reflexivity.
Qed.

(** C10: when [ADMIN_SECRET_KEY] is absent or the empty string, each of the
    three admin-gated routes lets a request pass exactly when its [secret]
    parameter is the string [admin-secret-key] of the source: that secret
    is never answered 401, and every other one (or none) is answered 401
    with nothing changed. *)
Theorem default_secret_gates_admin rt request env :
  ADMIN_SECRET_KEY env = None \/ ADMIN_SECRET_KEY env = Some [] ->
  adminGated request = true ->
  (get (js "secret") (searchParams request) = Some (js "admin-secret-key") ->
   Response.status (fst (fetch rt request env)) <> 401%Z)
  /\ (get (js "secret") (searchParams request) <> Some (js "admin-secret-key") ->
      Response.status (fst (fetch rt request env)) = 401%Z
      /\ snd (fetch rt request env) = env).
Proof.
  intros Hkey Hgate.
  rewrite <- (adminSecret_default env Hkey).
  unfold adminGated in Hgate.
  apply orb_true_iff in Hgate as [Hgate | Hgate];
    [apply orb_true_iff in Hgate as [Hgate | Hgate]|];
    apply andb_true_iff in Hgate as [Hm Hp]; apply streq_eq in Hm.
  - apply streq_eq in Hp.
    rewrite (fetch_getAll rt request env Hm Hp); split; intros Hs.
    + rewrite (getAllComments_authorized rt request env Hs).
      destruct (available (DB env)); simpl; discriminate.
    + rewrite (getAllComments_unauthorized rt request env Hs); auto.
  - destruct (deleteMatch (pathname request)) as [commentId|] eqn:Hd;
      [|discriminate].
    rewrite (fetch_delete rt request env commentId Hm Hd).
    destruct (deleteMatch_Some _ _ Hd) as (Hdigits & _).
    split; intros Hs.
    + pose proof (deleteComment_authorized_status request env commentId
                    Hs Hdigits) as Hin.
      intros E; rewrite E in Hin; simpl in Hin.
      repeat destruct Hin as [Hin | Hin]; try discriminate; exact Hin.
    + rewrite (deleteComment_unauthorized request env commentId Hs); auto.
  - apply streq_eq in Hp.
    rewrite (fetch_admin rt request env Hm Hp); split; intros Hs.
    + apply authorized_iff in Hs; rewrite Hs; simpl; discriminate.
    + apply unauthorized_iff in Hs; rewrite Hs; auto.
Qed.

Lemma default_secret_gates_admin_witness :
  Response.status
    (fst (fetch stableRuntime
            (getRequest "/admin" [("secret", "admin-secret-key")]%string)
            devEnv)) <> 401%Z
  /\ Response.status
       (fst (fetch stableRuntime
               (getRequest "/api/comments/all" [("secret", "letmein")]%string)
               devEnv)) = 401%Z.
Proof.
  split.
  - apply (default_secret_gates_admin stableRuntime
             (getRequest "/admin" [("secret", "admin-secret-key")]%string)
             devEnv); [left|..]; reflexivity.
  - apply (default_secret_gates_admin stableRuntime
             (getRequest "/api/comments/all" [("secret", "letmein")]%string)
             devEnv); [left; reflexivity | reflexivity | discriminate].
Defined.

(** ** What the README documents and [src/index.js] does not do *)

Lemma adminSecret_two_tiers db kv key :
  adminSecret {| DB := db; SECRETS := kv; ADMIN_SECRET_KEY := key |}
  = match key with
    | Some k => if isEmpty k then js "admin-secret-key" else k
    | None => js "admin-secret-key"
    end.
Proof. reflexivity. Qed.

(** C2 (the code departs from it): the secret the three gates compare with
    never depends on the KV namespace.  With [kv-secret-1234] stored under
    the well-known key and [env-secret-5678] in the environment, the source
    resolves to the environment's value, where the three-tier chain gives
    the stored one; a request carrying the stored secret is answered 401
    and one carrying the environment's secret is let through. *)
Theorem adminSecret_ignores_durable_store :
  (forall db kv kv' key,
      adminSecret {| DB := db; SECRETS := kv; ADMIN_SECRET_KEY := key |}
      = adminSecret {| DB := db; SECRETS := kv'; ADMIN_SECRET_KEY := key |})
  /\ adminSecret kvEnv = js "env-secret-5678"
  /\ resolve_spec kvEnv = js "kv-secret-1234"
  /\ (forall rt,
         fetch rt (getRequest "/api/comments/all"
                     [("secret", "kv-secret-1234")]%string) kvEnv
         = (errorResponse 401 "Unauthorized", kvEnv))
  /\ (forall rt,
         Response.status
           (fst (fetch rt (getRequest "/api/comments/all"
                             [("secret", "env-secret-5678")]%string) kvEnv))
         = 200%Z).
Proof. repeat split. Qed.

(** C3 (the code departs from it): [fetch] has no [/setup] route.  A
    request for [/setup], whatever its method, parameters and body, is
    answered by the CORS preflight ([OPTIONS]) or falls through to the last
    line of the router: status 200 with the text [Blog Comment System API].
    No [newSecret] is measured, no [currentSecret] compared, and the
    environment, its KV namespace included, is returned as it was. *)
Theorem setup_is_not_routed rt env verb params body :
  fetch rt {| method := verb; pathname := js "/setup";
              searchParams := params; json := body |} env
  = (if streq verb (js "OPTIONS") then handleOptions else defaultResponse,
     env)
  /\ fetch rt {| method := js "POST"; pathname := js "/setup";
                 searchParams := params; json := body |} env
     = (defaultResponse, env).
Proof.
  split; [|reflexivity].
  unfold fetch; cbn [method pathname searchParams json]; literals.
  destruct (streq verb (js "OPTIONS")); [reflexivity|].
  destruct (streq verb (js "DELETE")), (streq verb (js "GET")); reflexivity.
Qed.

(** ** Ids that are not numbers *)

Lemma delete_other_path rt env id params body :
  allDigits id = false ->
  fetch rt {| method := js "DELETE"; pathname := js "/api/comments/" ++ id;
              searchParams := params; json := body |} env
  = (defaultResponse, env).
Proof.
  intros Hd; unfold fetch; cbn [method pathname searchParams json].
  rewrite deleteMatch_digits, Hd; literals.
  replace (streq (js "/api/comments/" ++ id) (js "/api/comments"))
    with false by reflexivity.
  reflexivity.
Qed.

(** C6 (the code departs from it): no [DELETE] request is answered 400.
    The router hands [deleteComment] only paths that already match
    [/^\/api\/comments\/(\d+)$/], so its [Invalid comment ID] branch is never
    taken; [DELETE /api/comments/abc] and [DELETE /api/comments/] reach the
    fallback and are answered 200. *)
Theorem delete_is_never_answered_400 :
  (forall rt env path params body,
      Response.status
        (fst (fetch rt {| method := js "DELETE"; pathname := path;
                          searchParams := params; json := body |} env))
      <> 400%Z)
  /\ (forall rt env secret,
         fetch rt (deleteRequest "abc" secret) env = (defaultResponse, env))
  /\ (forall rt env secret,
         fetch rt (deleteRequest "" secret) env = (defaultResponse, env)).
Proof.
  split; [|split; intros; reflexivity].
  intros rt env path params body.
  unfold fetch; cbn [method pathname searchParams json]; literals.
  destruct (streq path (js "/api/comments")); [simpl; discriminate|].
  destruct (deleteMatch path) as [commentId|] eqn:Hd; [|simpl; discriminate].
  destruct (deleteMatch_Some _ _ Hd) as (Hdigits & _).
  match goal with
  | |- Response.status (fst (deleteComment ?r env commentId)) <> _ =>
      pose proof (deleteComment_status r env commentId Hdigits) as Hin
  end.
  intros E; rewrite E in Hin; simpl in Hin.
  repeat destruct Hin as [Hin | Hin]; try discriminate; exact Hin.
Qed.

(** ** Validation of a submission *)

Lemma textErrors_nil required empty tooLong limit v :
  textErrors required empty tooLong limit v = [] <-> textOk limit v.
Proof.
  unfold textErrors, textOk; split.
  - destruct (truthy v) eqn:Ht; simpl; [|discriminate].
    destruct v; try discriminate.
    destruct (Nat.eqb_spec (List.length (trim s)) 0); [discriminate|].
    destruct (Nat.ltb_spec limit (List.length (trim s))); [discriminate|].
    intros _; exists s; split; [reflexivity | lia].
  - intros (s & -> & Hlen).
    destruct s as [|c s]; [simpl in Hlen; lia|]; simpl truthy; simpl negb.
    cbv iota.
    destruct (Nat.eqb_spec (List.length (trim (c :: s))) 0); [lia|].
    destruct (Nat.ltb_spec limit (List.length (trim (c :: s)))); [lia|].
    reflexivity.
Qed.

Lemma textErrors_one required empty tooLong limit v :
  List.length (textErrors required empty tooLong limit v) <= 1.
Proof.
  unfold textErrors.
  destruct (truthy v); simpl; [|lia].
  destruct v; simpl; try lia.
  destruct (Nat.eqb _ 0); simpl; [lia|].
  destruct (Nat.ltb _ _); simpl; lia.
Qed.

Lemma isValidUrl_true rt v :
  isValidUrl rt v = true
  <-> exists s url, toString v = Some s
                    /\ Url.parse (authority rt) s = Some url.
Proof.
  unfold isValidUrl; split.
  - destruct (toString v) as [s|]; [|discriminate].
    destruct (Url.parse (authority rt) s) as [url|] eqn:E; [|discriminate].
    intros _; exists s, url; auto.
  - intros (s & url & -> & ->); reflexivity.
Qed.

Lemma isValidUrl_parse rt v :
  isValidUrl rt v = false
  <-> forall s, toString v = Some s -> Url.parse (authority rt) s = None.
Proof.
  unfold isValidUrl; split.
  - destruct (toString v) as [t|]; [|discriminate].
    destruct (Url.parse (authority rt) t) eqn:E; [discriminate|].
    intros _ s [= <-]; exact E.
  - destruct (toString v) as [t|]; [|reflexivity].
    intros H; rewrite (H t eq_refl); reflexivity.
Qed.

Lemma pageUrlErrors_nil rt v : pageUrlErrors rt v = [] <-> pageUrlOk rt v.
Proof.
  unfold pageUrlErrors, pageUrlOk; rewrite <- isValidUrl_true.
  destruct (truthy v), (isValidUrl rt v); simpl; split;
    try discriminate; try tauto; intros [? ?]; discriminate.
Qed.

Lemma pageUrlErrors_one rt v : List.length (pageUrlErrors rt v) <= 1.
Proof.
  unfold pageUrlErrors.
  destruct (truthy v), (isValidUrl rt v); simpl; lia.
Qed.

Lemma createComment_rejects rt request env body p a c :
  json request = Some body ->
  property body (js "page_url") = Some p ->
  property body (js "author_name") = Some a ->
  property body (js "comment_content") = Some c ->
  validate rt p a c <> [] ->
  createComment rt request env
  = ({| Response.status := 400;
        Response.body := ErrorJson (join (js "; ") (validate rt p a c));
        Response.headers := jsonHeaders |}, env).
Proof.
  intros Hj Hp Ha Hc Hv; unfold createComment.
  rewrite Hj, Hp, Ha, Hc.
  destruct (validate rt p a c); [contradiction | reflexivity].
Qed.

(** C7: for every submission to [POST /api/comments] the three fields are
    checked independently of one another, each rule in the specification's
    words deciding whether its field contributes a message; the messages of
    all violated rules are collected in order and, when there is any, the
    response is 400 with the messages joined by [; ], and the environment is
    returned as it was: no statement has been sent to the database, whether
    or not it is available. *)
Theorem validation_collects_every_violation
  rt request env body p a c :
  method request = js "POST" ->
  pathname request = js "/api/comments" ->
  json request = Some body ->
  property body (js "page_url") = Some p ->
  property body (js "author_name") = Some a ->
  property body (js "comment_content") = Some c ->
  validate rt p a c
  = pageUrlErrors rt p ++ authorNameErrors a ++ commentContentErrors c
  /\ (pageUrlErrors rt p = [] <-> pageUrlOk rt p)
  /\ (authorNameErrors a = [] <-> textOk 100 a)
  /\ (commentContentErrors c = [] <-> textOk 1000 c)
  /\ List.length (pageUrlErrors rt p) <= 1
  /\ List.length (authorNameErrors a) <= 1
  /\ List.length (commentContentErrors c) <= 1
  /\ (validate rt p a c <> [] ->
      fetch rt request env
      = ({| Response.status := 400;
            Response.body := ErrorJson (join (js "; ") (validate rt p a c));
            Response.headers := jsonHeaders |}, env)).
Proof.
  intros Hm Hpath Hj Hp Ha Hc.
  split; [reflexivity|].
  split; [apply pageUrlErrors_nil|].
  split; [apply textErrors_nil|].
  split; [apply textErrors_nil|].
  split; [apply pageUrlErrors_one|].
  split; [apply textErrors_one|].
  split; [apply textErrors_one|].
  intros Hv; rewrite (fetch_createComment rt request env Hm Hpath).
  eapply createComment_rejects; eauto.
Qed.

Lemma validation_collects_every_violation_witness :
  fetch stableRuntime badSubmission downEnv
  = (errorResponse 400
       ("Invalid page_url format; author_name is required; " ++
        "comment_content must be 1000 characters or less"), downEnv)
  /\ fetch stableRuntime unprintableSubmission downEnv
     = (errorResponse 400
          "Invalid page_url format; author_name is required", downEnv).
Proof.
  pose proof (validation_collects_every_violation stableRuntime
                badSubmission downEnv
                (Object [(js "page_url", Str (js "not a url"));
                         (js "comment_content", Str (repeat 120%N 1001))])
                (Str (js "not a url")) Undefined (Str (repeat 120%N 1001))
                eq_refl eq_refl eq_refl eq_refl eq_refl eq_refl)
    as (_ & _ & _ & _ & _ & _ & _ & H).
  pose proof (validation_collects_every_violation stableRuntime
                unprintableSubmission downEnv
                (Object
                   [(js "page_url",
                     Array [Str (js "http://a.b/");
                            Object [(js "toString", Number false (js "1"))]]);
                    (js "comment_content", Str (js "Hello"))])
                (Array [Str (js "http://a.b/");
                        Object [(js "toString", Number false (js "1"))]])
                Undefined (Str (js "Hello"))
                eq_refl eq_refl eq_refl eq_refl eq_refl eq_refl)
    as (_ & _ & _ & _ & _ & _ & _ & H').
  split.
  - rewrite H; [reflexivity | discriminate].
  - rewrite H'; [reflexivity | discriminate].
Defined.

(** ** [page_url] and the URL parser *)

Lemma parse_scheme auth input url :
  Url.parse auth input = Some url ->
  exists rest,
    Url.splitScheme (Url.preprocess input) = Some (Url.protocol url, rest).
Proof.
  unfold Url.parse.
  destruct (Url.splitScheme (Url.preprocess input)) as [[scheme rest]|];
    [|discriminate].
  intros H; exists rest; f_equal; f_equal.
  repeat match type of H with
         | (if ?b then _ else _) = _ => destruct b
         | match ?r with _ => _ end = _ => destruct r
         | option_map _ ?o = _ => destruct o; simpl in H
         end;
    try discriminate; injection H as <-; reflexivity.
Qed.

Lemma getComments_rejects rt request env pageUrl :
  get (js "page_url") (searchParams request) = Some pageUrl ->
  Url.parse (authority rt) pageUrl = None ->
  Response.status (fst (getComments rt request env)) = 400%Z
  /\ snd (getComments rt request env) = env.
Proof.
  intros Hg Hp; unfold getComments; rewrite Hg.
  destruct (isEmpty pageUrl); [auto|].
  replace (isValidUrl rt (Str pageUrl)) with false
    by (symmetry; apply isValidUrl_parse; intros s [= <-]; exact Hp).
  auto.
Qed.

Lemma getComments_missing rt request env :
  get (js "page_url") (searchParams request) = None ->
  getComments rt request env
  = (errorResponse 400 "page_url parameter is required", env).
Proof. intros Hg; unfold getComments; rewrite Hg; reflexivity. Qed.

Lemma pageUrlErrors_unparsed rt p :
  (forall s, toString p = Some s -> Url.parse (authority rt) s = None) ->
  pageUrlErrors rt p <> [].
Proof.
  intros H; apply isValidUrl_parse in H.
  unfold pageUrlErrors; rewrite H.
  destruct (truthy p); discriminate.
Qed.

(** C9, as the claim states it, fails: a host is not needed.  The opaque
    URL [mailto:a@b.c] has a scheme and no host; every runtime's parser
    accepts it, [GET /api/comments] answers 200 and [POST /api/comments]
    stores the comment (201). *)
Lemma page_url_without_host_is_accepted :
  (forall auth,
      Url.parse auth (js "mailto:a@b.c")
      = Some {| Url.protocol := js "mailto"; Url.host := [] |})
  /\ (forall rt,
         Response.status
           (fst (fetch rt (getRequest "/api/comments"
                             [("page_url", "mailto:a@b.c")]%string) devEnv))
         = 200%Z)
  /\ (forall rt,
         Response.status
           (fst (fetch rt
                   (postRequest
                      [("page_url", Str (js "mailto:a@b.c"));
                       ("author_name", Str (js "Ann"));
                       ("comment_content", Str (js "Hello"))]%string)
                   devEnv))
         = 201%Z).
Proof. repeat split. Qed.

(** C9 (amended): on [GET] and on [POST /api/comments] a [page_url] that the
    platform's URL parser rejects is answered 400 and nothing reaches the
    database, and so is a submitted [page_url] that has no string form at
    all; the literal [not a url] is such a value for every runtime.  A
    value the parser accepts has a scheme: the input, once trimmed of
    control characters, begins with a letter, goes on with letters, digits,
    [+], [-] or [.], and reaches a colon.  (A host is not required.) *)
Theorem page_url_must_parse rt env :
  (forall request pageUrl,
      method request = js "GET" ->
      pathname request = js "/api/comments" ->
      get (js "page_url") (searchParams request) = Some pageUrl ->
      Url.parse (authority rt) pageUrl = None ->
      Response.status (fst (fetch rt request env)) = 400%Z
      /\ snd (fetch rt request env) = env)
  /\ (forall request body p a c,
         method request = js "POST" ->
         pathname request = js "/api/comments" ->
         json request = Some body ->
         property body (js "page_url") = Some p ->
         property body (js "author_name") = Some a ->
         property body (js "comment_content") = Some c ->
         (forall s, toString p = Some s ->
                    Url.parse (authority rt) s = None) ->
         Response.status (fst (fetch rt request env)) = 400%Z
         /\ snd (fetch rt request env) = env)
  /\ (forall input url,
         Url.parse (authority rt) input = Some url ->
         exists rest,
           Url.splitScheme (Url.preprocess input)
           = Some (Url.protocol url, rest))
  /\ Url.parse (authority rt) (js "not a url") = None
  /\ Response.status
       (fst (fetch rt (getRequest "/api/comments"
                         [("page_url", "not a url")]%string) env)) = 400%Z
  /\ Response.status
       (fst (fetch rt (postRequest
                         [("page_url", Str (js "not a url"));
                          ("author_name", Str (js "Ann"));
                          ("comment_content", Str (js "Hello"))]%string)
               env)) = 400%Z.
Proof.
  split; [|split; [|split; [|repeat split]]].
  - intros request pageUrl Hm Hpath Hg Hp.
    rewrite (fetch_getComments rt request env Hm Hpath).
    apply (getComments_rejects rt request env pageUrl Hg Hp).
  - intros request body p a c Hm Hpath Hj Hp Ha Hc Hu.
    rewrite (fetch_createComment rt request env Hm Hpath).
    rewrite (createComment_rejects rt request env body p a c Hj Hp Ha Hc).
    + auto.
    + intros E; apply app_eq_nil in E as [E _].
      exact (pageUrlErrors_unparsed rt p Hu E).
  - apply parse_scheme.
Qed.

Lemma page_url_must_parse_witness :
  Response.status
    (fst (fetch stableRuntime
            (getRequest "/api/comments"
               [("page_url", "example.com/post")]%string) devEnv)) = 400%Z
  /\ snd (fetch stableRuntime
            (getRequest "/api/comments"
               [("page_url", "example.com/post")]%string) devEnv) = devEnv.
Proof.
  destruct (page_url_must_parse stableRuntime devEnv) as (Hget & _).
  apply (Hget (getRequest "/api/comments"
                 [("page_url", "example.com/post")]%string)
           (js "example.com/post")); reflexivity.
Defined.

(** ** Listing the comments of a page *)

Lemma filter_none (f : Comment -> bool) rows :
  (forall c, In c rows -> f c = false) -> filter f rows = [].
Proof.
  induction rows as [|c rows IH]; intros H; [reflexivity|].
  simpl; rewrite (H c (or_introl eq_refl)).
  apply IH; intros d Hd; apply H; right; exact Hd.
Qed.

Lemma approvedOn_iff pageUrl c :
  approvedOn pageUrl c = true
  <-> page_url c = pageUrl /\ status c = js "approved".
Proof.
  unfold approvedOn; rewrite andb_true_iff, !streq_eq; reflexivity.
Qed.

Lemma earlier_true a b : earlier a b = true -> byTimeThenId a b.
Proof.
  unfold earlier, byTimeThenId; intros H.
  apply orb_prop in H as [H | H]; [left; lia|].
  apply andb_prop in H as [H1 H2]; right; lia.
Qed.

Lemma earlier_false a b : earlier a b = false -> byTimeThenId b a.
Proof.
  unfold earlier, byTimeThenId; intros H.
  apply orb_false_elim in H as [H1 H2].
  apply andb_false_elim in H2 as [H2 | H2]; lia.
Qed.

Lemma byTimeThenId_trans a b c :
  byTimeThenId a b -> byTimeThenId b c -> byTimeThenId a c.
Proof. unfold byTimeThenId; lia. Qed.

Lemma insertByTime_perm c rows : Permutation (insertByTime c rows) (c :: rows).
Proof.
  induction rows as [|d rows IH]; simpl; [reflexivity|].
  destruct (earlier c d); [reflexivity|].
  rewrite IH; apply perm_swap.
Qed.

Lemma insertByTime_sorted c rows :
  StronglySorted byTimeThenId rows ->
  StronglySorted byTimeThenId (insertByTime c rows).
Proof.
  induction 1 as [|d rows Hs IH Hd]; simpl.
  - repeat constructor.
  - destruct (earlier c d) eqn:E.
    + apply earlier_true in E.
      constructor; [constructor; assumption|].
      constructor; [exact E|].
      eapply Forall_impl; [|exact Hd].
      intros x Hx; exact (byTimeThenId_trans c d x E Hx).
    + apply earlier_false in E.
      constructor; [assumption|].
      eapply Permutation_Forall; [symmetry; apply insertByTime_perm|].
      constructor; [exact E | exact Hd].
Qed.

Lemma byCreatedAt_perm rows : Permutation (byCreatedAt rows) rows.
Proof.
  induction rows as [|c rows IH]; simpl; [reflexivity|].
  rewrite insertByTime_perm, IH; reflexivity.
Qed.

Lemma byCreatedAt_sorted rows : StronglySorted byTimeThenId (byCreatedAt rows).
Proof.
  induction rows as [|c rows IH]; simpl; [constructor|].
  apply insertByTime_sorted, IH.
Qed.

Lemma selectByPage_In pageUrl db c :
  In c (selectByPage pageUrl db)
  <-> In c (comments db) /\ page_url c = pageUrl /\ status c = js "approved".
Proof.
  unfold selectByPage.
  pose proof (byCreatedAt_perm (filter (approvedOn pageUrl) (comments db)))
    as Hperm.
  rewrite <- approvedOn_iff, <- filter_In; split; intros H.
  - exact (Permutation_in _ Hperm H).
  - exact (Permutation_in _ (Permutation_sym Hperm) H).
Qed.

Lemma getComments_lists rt request env pageUrl :
  get (js "page_url") (searchParams request) = Some pageUrl ->
  isValidUrl rt (Str pageUrl) = true ->
  available (DB env) = true ->
  getComments rt request env
  = let results := selectByPage pageUrl (DB env) in
    ({| Response.status := 200;
        Response.body := CommentsJson false results (List.length results);
        Response.headers := jsonHeaders |}, sent env).
Proof.
  intros Hg Hv Ha; unfold getComments; rewrite Hg.
  destruct pageUrl as [|ch rest]; [discriminate Hv|].
  simpl isEmpty; cbv iota; rewrite Hv, Ha; reflexivity.
Qed.

(** C8: for every page URL the query of [getComments] returns exactly the
    rows whose [page_url] is the given one and whose [status] is [approved],
    each as often as the table holds it, in ascending order of [created_at]
    with rows of equal [created_at] in ascending order of [id], and the
    empty list when there is no such row; for a page URL that the URL parser
    accepts and an answering database [GET /api/comments] answers 200 with
    that list and its length as [count], never an error. *)
Theorem getComments_lists_approved_by_time_then_id rt pageUrl env :
  Permutation (selectByPage pageUrl (DB env))
    (filter (approvedOn pageUrl) (comments (DB env)))
  /\ (forall c,
         In c (selectByPage pageUrl (DB env))
         <-> In c (comments (DB env))
             /\ page_url c = pageUrl /\ status c = js "approved")
  /\ StronglySorted byTimeThenId (selectByPage pageUrl (DB env))
  /\ ((forall c, In c (comments (DB env)) ->
                 page_url c <> pageUrl \/ status c <> js "approved") ->
      selectByPage pageUrl (DB env) = [])
  /\ (forall request url,
         method request = js "GET" ->
         pathname request = js "/api/comments" ->
         get (js "page_url") (searchParams request) = Some pageUrl ->
         Url.parse (authority rt) pageUrl = Some url ->
         available (DB env) = true ->
         fetch rt request env
         = ({| Response.status := 200;
               Response.body :=
                 CommentsJson false (selectByPage pageUrl (DB env))
                   (List.length (selectByPage pageUrl (DB env)));
               Response.headers := jsonHeaders |}, sent env)).
Proof.
  split; [apply byCreatedAt_perm|].
  split; [apply selectByPage_In|].
  split; [apply byCreatedAt_sorted|].
  split.
  - intros Hnone; unfold selectByPage.
    rewrite filter_none; [reflexivity|].
    intros c Hc; destruct (approvedOn pageUrl c) eqn:E; [|reflexivity].
    apply approvedOn_iff in E; destruct (Hnone c Hc); tauto.
  - intros request url Hm Hpath Hg Hv Ha.
    rewrite (fetch_getComments rt request env Hm Hpath).
    apply (getComments_lists rt request env pageUrl Hg); [|exact Ha].
    apply isValidUrl_true; exists pageUrl, url; auto.
Qed.

Lemma getComments_lists_approved_by_time_then_id_witness :
  fetch stableRuntime plainGet shuffledEnv
  = ({| Response.status := 200;
        Response.body :=
          CommentsJson false
            [someComment 1 1700000000 "https://example.com/post";
             someComment 3 1700000000 "https://example.com/post";
             someComment 2 1700000050 "https://example.com/post"] 3;
        Response.headers := jsonHeaders |}, sent shuffledEnv)
  /\ selectByPage (js "https://example.com/none") (DB shuffledEnv) = [].
Proof.
  destruct (getComments_lists_approved_by_time_then_id stableRuntime
              (js "https://example.com/post") shuffledEnv)
    as (_ & _ & _ & _ & Hfetch).
  destruct (getComments_lists_approved_by_time_then_id stableRuntime
              (js "https://example.com/none") shuffledEnv)
    as (_ & _ & _ & Hnone & _).
  split.
  - rewrite (Hfetch plainGet
               {| Url.protocol := js "https"; Url.host := js "example.com" |}
               eq_refl eq_refl eq_refl eq_refl eq_refl).
    reflexivity.
  - apply Hnone; intros c [<- | [<- | [<- | [<- | []]]]]; left; discriminate.
Defined.

(** ** A comment posted and read back *)

(** C4 (the code departs from it): [createComment] stores the sanitized
    [page_url], [getComments] looks up the [page_url] it is given.  The
    valid submission for [https://example.com/what's-new] is answered 201
    and stored under [https://example.com/what&#39;s-new]; the [GET] for the
    submitted URL that follows is answered 200 with an empty list. *)
Theorem posted_comment_missing_from_its_page rt :
  fetch rt quotedPost freshEnv
  = ({| Response.status := 201;
        Response.body := CreatedJson (Some quotedRow);
        Response.headers := jsonHeaders |},
     sent (sent (withComments [quotedRow] 1 freshEnv)))
  /\ fetch rt quotedGet (snd (fetch rt quotedPost freshEnv))
     = ({| Response.status := 200;
           Response.body := CommentsJson false [] 0;
           Response.headers := jsonHeaders |},
        sent (snd (fetch rt quotedPost freshEnv))).
Proof.
  assert (Hpost : fetch rt quotedPost freshEnv
                  = ({| Response.status := 201;
                        Response.body := CreatedJson (Some quotedRow);
                        Response.headers := jsonHeaders |},
                     sent (sent (withComments [quotedRow] 1 freshEnv))))
    by reflexivity.
  split; [exact Hpost|].
  rewrite Hpost; cbn [snd].
  set (env1 := sent (sent (withComments [quotedRow] 1 freshEnv))).
  rewrite (fetch_getComments rt quotedGet env1 eq_refl eq_refl).
  rewrite (getComments_lists rt quotedGet env1
             (js "https://example.com/what's-new") eq_refl eq_refl eq_refl).
  cbv zeta; unfold selectByPage.
  replace (filter _ _) with (@nil Comment) by reflexivity.
  reflexivity.
Qed.

(** ** A valid submission is stored sanitized and read back *)

Lemma maxId_bound rows c : In c rows -> (id c <= maxId rows)%Z.
Proof.
  induction rows as [|d rows IH]; simpl; [tauto|].
  intros [-> | H]; [lia | specialize (IH H); lia].
Qed.

Lemma byId_fresh rows row :
  (forall c, In c rows -> (id c < id row)%Z) ->
  byId (id row) (rows ++ [row]) = Some row.
Proof.
  unfold byId; induction rows as [|d rows IH]; intros H; simpl.
  - rewrite Z.eqb_refl; reflexivity.
  - destruct (Z.eqb_spec (id d) (id row)) as [E|_].
    + specialize (H d (or_introl eq_refl)); lia.
    + apply IH; intros c Hc; apply H; right; exact Hc.
Qed.

Lemma sanitizeInput_trim s : sanitizeInput (trim s) = sanitizeInput s.
Proof.
  rewrite !sanitizeInput_pointwise, trim_idempotent; reflexivity.
Qed.

Lemma validate_nil rt p a c :
  validate rt p a c = [] ->
  pageUrlOk rt p /\ textOk 100 a /\ textOk 1000 c.
Proof.
  unfold validate; intros H.
  apply app_eq_nil in H as [Hp H]; apply app_eq_nil in H as [Ha Hc].
  apply pageUrlErrors_nil in Hp.
  apply textErrors_nil in Ha; apply textErrors_nil in Hc; tauto.
Qed.

Lemma maxId_nonneg rows : (0 <= maxId rows)%Z.
Proof. induction rows as [|c rows IH]; simpl; lia. Qed.

Lemma largestRowid_bounds db :
  (0 <= largestRowid db)%Z
  /\ (sequence db <= largestRowid db)%Z
  /\ forall c, In c (comments db) -> (id c <= largestRowid db)%Z.
Proof.
  unfold largestRowid; pose proof (maxId_nonneg (comments db)).
  repeat split; try lia.
  intros c Hc; apply maxId_bound in Hc; lia.
Qed.

Lemma toDouble_exact n : (Z.abs n <= MAX_EXACT)%Z -> toDouble n = n.
Proof.
  unfold toDouble; intros H; apply Z.leb_le in H; rewrite H; reflexivity.
Qed.

Lemma exactIds_room db : exactIds db -> (largestRowid db < MAX_ROWID)%Z.
Proof. unfold exactIds, MAX_EXACT, MAX_ROWID; lia. Qed.

Lemma insert_row p a c env :
  (largestRowid (DB env) < MAX_ROWID)%Z ->
  insert (sanitizeInput p) (sanitizeInput a) (sanitizeInput c) (DB env)
  = Some (createdRow env p a c, comments (DB env) ++ [createdRow env p a c]).
Proof.
  intros H; unfold insert, nextId.
  apply Z.ltb_lt in H; rewrite H; reflexivity.
Qed.

Lemma insert_full p a c db :
  (MAX_ROWID <= largestRowid db)%Z -> insert p a c db = None.
Proof.
  intros H; unfold insert, nextId.
  apply Z.ltb_ge in H; rewrite H; reflexivity.
Qed.

(** Up to 2^53 the worker reads back the row it wrote. *)
Lemma readBack_exact env p a c :
  exactIds (DB env) ->
  byId (toDouble (largestRowid (DB env) + 1))
    (comments (DB env) ++ [createdRow env p a c])
  = Some (createdRow env p a c).
Proof.
  intros H; destruct (largestRowid_bounds (DB env)) as (H0 & _ & Hrows).
  rewrite toDouble_exact by (unfold exactIds, MAX_EXACT in *; lia).
  apply (byId_fresh (comments (DB env)) (createdRow env p a c)).
  intros d Hd; apply Hrows in Hd; cbn [createdRow id]; lia.
Qed.

Lemma createComment_accepts rt request env body p a c :
  json request = Some body ->
  property body (js "page_url") = Some (Str p) ->
  property body (js "author_name") = Some (Str a) ->
  property body (js "comment_content") = Some (Str c) ->
  validate rt (Str p) (Str a) (Str c) = [] ->
  available (DB env) = true ->
  (largestRowid (DB env) < MAX_ROWID)%Z ->
  createComment rt request env
  = ({| Response.status := 201;
        Response.body :=
          CreatedJson (byId (toDouble (largestRowid (DB env) + 1))
                         (comments (DB env) ++ [createdRow env p a c]));
        Response.headers := jsonHeaders |},
     sent (sent (withComments (comments (DB env) ++ [createdRow env p a c])
                   (largestRowid (DB env) + 1) env))).
Proof.
  intros Hj Hp Ha Hc Hv Hav Hroom; unfold createComment.
  rewrite Hj, Hp, Ha, Hc, Hv, Hav; cbn [List.length Nat.ltb Nat.leb].
  rewrite !sanitizeInput_trim, (insert_row p a c env Hroom).
  reflexivity.
Qed.

Lemma createComment_reports rt request env body p a c :
  json request = Some body ->
  property body (js "page_url") = Some (Str p) ->
  property body (js "author_name") = Some (Str a) ->
  property body (js "comment_content") = Some (Str c) ->
  validate rt (Str p) (Str a) (Str c) = [] ->
  available (DB env) = true ->
  exactIds (DB env) ->
  createComment rt request env
  = ({| Response.status := 201;
        Response.body := CreatedJson (Some (createdRow env p a c));
        Response.headers := jsonHeaders |},
     sent (sent (withComments (comments (DB env) ++ [createdRow env p a c])
                   (largestRowid (DB env) + 1) env))).
Proof.
  intros Hj Hp Ha Hc Hv Hav Hexact.
  rewrite (createComment_accepts rt request env body p a c Hj Hp Ha Hc Hv Hav
             (exactIds_room _ Hexact)).
  rewrite (readBack_exact env p a c Hexact); reflexivity.
Qed.

(** For a valid submission whose [page_url] the sanitizer and the database
    leave as it is (no white space around it, none of the four escaped
    characters, no surrogate outside a pair), sent while the next row id is
    one the worker can read back, the comment is answered 201 and reported
    with [author_name] and [comment_content] sanitized and as the database
    returns text, and the [GET] for the same [page_url] that follows lists
    it. *)
Theorem posted_comment_listed_for_plain_url
  rt post listing env body p a c :
  method post = js "POST" ->
  pathname post = js "/api/comments" ->
  json post = Some body ->
  property body (js "page_url") = Some (Str p) ->
  property body (js "author_name") = Some (Str a) ->
  property body (js "comment_content") = Some (Str c) ->
  validate rt (Str p) (Str a) (Str c) = [] ->
  available (DB env) = true ->
  exactIds (DB env) ->
  sanitizeInput p = p ->
  wellFormed p ->
  method listing = js "GET" ->
  pathname listing = js "/api/comments" ->
  get (js "page_url") (searchParams listing) = Some p ->
  exists created results,
    fst (fetch rt post env)
    = {| Response.status := 201;
         Response.body := CreatedJson (Some created);
         Response.headers := jsonHeaders |}
    /\ page_url created = p
    /\ author_name created = storedText (sanitizeInput a)
    /\ comment_content created = storedText (sanitizeInput c)
    /\ fst (fetch rt listing (snd (fetch rt post env)))
       = {| Response.status := 200;
            Response.body := CommentsJson false results (List.length results);
            Response.headers := jsonHeaders |}
    /\ In created results.
Proof.
  intros Hm Hpath Hj Hp Ha Hc Hv Hav Hexact Hclean Hwf Hm' Hpath' Hg.
  rewrite (fetch_createComment rt post env Hm Hpath).
  rewrite (createComment_reports rt post env body p a c
             Hj Hp Ha Hc Hv Hav Hexact).
  cbn [fst snd].
  set (row := createdRow env p a c).
  set (env1 := sent (sent (withComments _ _ env))).
  destruct (validate_nil rt _ _ _ Hv) as ((_ & Hurl) & _ & _).
  apply isValidUrl_true in Hurl.
  assert (Hav1 : available (DB env1) = true) by exact Hav.
  assert (Hpage : page_url row = p)
    by (subst row; cbn [createdRow page_url]; rewrite Hclean; exact Hwf).
  rewrite (fetch_getComments rt listing env1 Hm' Hpath').
  rewrite (getComments_lists rt listing env1 p Hg Hurl Hav1); cbv zeta.
  exists row, (selectByPage p (DB env1)).
  repeat split; [exact Hpage|].
  apply selectByPage_In; repeat split; [|exact Hpage].
  subst env1; cbn [sent withComments DB comments].
  apply in_or_app; right; left; reflexivity.
Qed.

Lemma posted_comment_listed_for_plain_url_witness :
  exists created results,
    fst (fetch stableRuntime plainPost devEnv)
    = {| Response.status := 201;
         Response.body := CreatedJson (Some created);
         Response.headers := jsonHeaders |}
    /\ page_url created = js "https://example.com/post"
    /\ author_name created = js "Ann"
    /\ comment_content created = js "1 &lt; 2"
    /\ fst (fetch stableRuntime plainGet
              (snd (fetch stableRuntime plainPost devEnv)))
       = {| Response.status := 200;
            Response.body := CommentsJson false results (List.length results);
            Response.headers := jsonHeaders |}
    /\ In created results.
Proof.
  destruct (posted_comment_listed_for_plain_url stableRuntime
              plainPost plainGet devEnv
              (Object [(js "page_url", Str (js "https://example.com/post"));
                       (js "author_name", Str (js "  Ann "));
                       (js "comment_content", Str (js "1 < 2"))])
              (js "https://example.com/post") (js "  Ann ") (js "1 < 2")
              eq_refl eq_refl eq_refl eq_refl eq_refl eq_refl
              eq_refl eq_refl eq_refl eq_refl eq_refl eq_refl
              eq_refl eq_refl)
    as (created & results & H1 & H2 & H3 & H4 & H5 & H6).
  exists created, results; repeat split; assumption.
Defined.

(** ** Deleting a comment *)

Lemma byId_removed n rows :
  byId n (filter (fun c => negb (Z.eqb (id c) n)) rows) = None.
Proof.
  unfold byId; induction rows as [|c rows IH]; simpl; [reflexivity|].
  destruct (Z.eqb (id c) n) eqn:E; simpl; [exact IH|].
  rewrite E; exact IH.
Qed.

(** A [DELETE] with the right secret for a row the table holds is answered
    200 and removes the rows of that id and no other; the same request sent
    again is answered 404, and the admin listing that follows holds no row
    of that id. *)
Theorem delete_removes_the_comment
  rt request listing env commentId row :
  method request = js "DELETE" ->
  pathname request = js "/api/comments/" ++ commentId ->
  allDigits commentId = true ->
  get (js "secret") (searchParams request) = Some (adminSecret env) ->
  available (DB env) = true ->
  byId (toInteger commentId) (comments (DB env)) = Some row ->
  method listing = js "GET" ->
  pathname listing = js "/api/comments/all" ->
  get (js "secret") (searchParams listing) = Some (adminSecret env) ->
  Response.status (fst (fetch rt request env)) = 200%Z
  /\ (forall c,
         In c (comments (DB (snd (fetch rt request env))))
         <-> In c (comments (DB env)) /\ id c <> toInteger commentId)
  /\ Response.status
       (fst (fetch rt request (snd (fetch rt request env)))) = 404%Z
  /\ exists results,
       Response.body (fst (fetch rt listing (snd (fetch rt request env))))
       = CommentsJson true results (List.length results)
       /\ forall c, In c results -> id c <> toInteger commentId.
Proof.
  intros Hm Hp Hd Hs Hav Hrow Hm' Hp' Hs'.
  assert (Hf : forall e, fetch rt request e = deleteComment request e commentId).
  { intros e; apply fetch_delete; [exact Hm|].
    rewrite Hp, deleteMatch_digits, Hd; reflexivity. }
  rewrite !Hf.
  rewrite (deleteComment_authorized request env commentId Hs Hd), Hav, Hrow.
  cbn [fst snd].
  set (n := toInteger commentId).
  set (env1 := sent (withComments _ _ (sent env))).
  assert (Hrows : comments (DB env1)
                  = filter (fun c => negb (Z.eqb (id c) n))
                      (comments (DB env))) by reflexivity.
  assert (Hsecret : adminSecret env1 = adminSecret env) by reflexivity.
  assert (Hav1 : available (DB env1) = true) by exact Hav.
  split; [reflexivity|].
  split; [|split].
  - intros c; rewrite Hrows, filter_In, negb_true_iff, Z.eqb_neq; tauto.
  - rewrite <- Hsecret in Hs.
    rewrite (deleteComment_authorized request env1 commentId Hs Hd), Hav1.
    fold n; rewrite Hrows, byId_removed; reflexivity.
  - rewrite <- Hsecret in Hs'.
    rewrite (fetch_getAll rt listing env1 Hm' Hp').
    rewrite (getAllComments_authorized rt listing env1 Hs'), Hav1.
    cbv zeta; cbn [fst Response.body].
    eexists; split; [reflexivity|].
    intros c Hc.
    apply (Permutation_in _ (orderBy_perm rt _ _)) in Hc.
    rewrite Hrows in Hc; apply filter_In in Hc as [_ Hc].
    apply negb_true_iff, Z.eqb_neq in Hc; exact Hc.
Qed.

Lemma delete_removes_the_comment_witness :
  Response.status
    (fst (fetch stableRuntime
            (deleteRequest "1" (Some "admin-secret-key"%string)) devEnv))
  = 200%Z
  /\ Response.status
       (fst (fetch stableRuntime
               (deleteRequest "1" (Some "admin-secret-key"%string))
               (snd (fetch stableRuntime
                       (deleteRequest "1" (Some "admin-secret-key"%string))
                       devEnv)))) = 404%Z.
Proof.
  destruct (delete_removes_the_comment stableRuntime
              (deleteRequest "1" (Some "admin-secret-key"%string))
              (getRequest "/api/comments/all"
                 [("secret", "admin-secret-key")]%string)
              devEnv (js "1")
              (someComment 1 1700000000 "https://example.com/post")
              eq_refl eq_refl eq_refl eq_refl eq_refl eq_refl
              eq_refl eq_refl eq_refl)
    as (H1 & _ & H3 & _).
  split; [exact H1 | exact H3].
Defined.

(** ** Reading changes nothing *)

(** A [GET /api/comments] leaves the table as it is, and the same request
    sent again gets the same response. *)
Theorem getComments_is_repeatable rt request env :
  method request = js "GET" ->
  pathname request = js "/api/comments" ->
  comments (DB (snd (fetch rt request env))) = comments (DB env)
  /\ fst (fetch rt request (snd (fetch rt request env)))
     = fst (fetch rt request env).
Proof.
  intros Hm Hp.
  assert (Hf : forall e, fetch rt request e = getComments rt request e)
    by (intros e; apply fetch_getComments; assumption).
  rewrite !Hf; unfold getComments.
  destruct (get (js "page_url") (searchParams request)) as [pageUrl|];
    [|split; reflexivity].
  destruct (isEmpty pageUrl); [split; reflexivity|].
  destruct (isValidUrl rt (Str pageUrl)); cbn [negb];
    [|split; reflexivity].
  destruct (available (DB env)) eqn:Hav; cbn [fst snd];
    split; try reflexivity;
    change (available (DB (sent env))) with (available (DB env));
    rewrite Hav; reflexivity.
Qed.

Lemma getComments_is_repeatable_witness :
  fst (fetch stableRuntime plainGet (snd (fetch stableRuntime plainGet devEnv)))
  = fst (fetch stableRuntime plainGet devEnv).
Proof.
  apply (getComments_is_repeatable stableRuntime plainGet devEnv);
    reflexivity.
Defined.

(* ================================================================== *)
(** * Further properties *)
(* ================================================================== *)

(** ** What the sanitizer returns *)

Lemma escapeChar_cases (x : N) :
  (In x [LT; GT; DQUOTE; SQUOTE]
   /\ In (escapeChar x) [js "&lt;"; js "&gt;"; js "&quot;"; js "&#39;"])
  \/ (~ In x [LT; GT; DQUOTE; SQUOTE] /\ escapeChar x = [x]).
Proof.
  unfold escapeChar.
  destruct (N.eqb_spec x LT) as [->|H1]; [left; simpl; tauto|].
  destruct (N.eqb_spec x GT) as [->|H2]; [left; simpl; tauto|].
  destruct (N.eqb_spec x DQUOTE) as [->|H3]; [left; simpl; tauto|].
  destruct (N.eqb_spec x SQUOTE) as [->|H4]; [left; simpl; tauto|].
  right; split; [|reflexivity].
  simpl; intros [E|[E|[E|[E|[]]]]]; congruence.
Qed.

Lemma escapeChar_clean (x : N) : clean (escapeChar x).
Proof.
  destruct (escapeChar_cases x) as [[_ H] | [H ->]].
  - simpl in H; destruct H as [<-|[<-|[<-|[<-|[]]]]]; intros c Hc;
      simpl in Hc;
      repeat (destruct Hc as [<- | Hc];
              [simpl; intros [E|[E|[E|[E|[]]]]]; discriminate E|]);
      destruct Hc.
  - intros c [<- | []]; exact H.
Qed.

Lemma escapeChar_length (x : N) :
  1 <= List.length (escapeChar x) <= 6.
Proof.
  destruct (escapeChar_cases x) as [[_ H] | [_ ->]]; [|simpl; lia].
  simpl in H; destruct H as [<-|[<-|[<-|[<-|[]]]]]; simpl; lia.
Qed.

Lemma escapeChar_edges (x : N) :
  isWhiteSpace x = false ->
  exists first last_ middle1 middle2,
    escapeChar x = first :: middle1
    /\ escapeChar x = middle2 ++ [last_]
    /\ isWhiteSpace first = false
    /\ isWhiteSpace last_ = false.
Proof.
  intros Hx; destruct (escapeChar_cases x) as [[_ H] | [_ ->]].
  - simpl in H; destruct H as [<-|[<-|[<-|[<-|[]]]]].
    + exists 38%N, 59%N, (js "lt;"), (js "&lt"); repeat split.
    + exists 38%N, 59%N, (js "gt;"), (js "&gt"); repeat split.
    + exists 38%N, 59%N, (js "quot;"), (js "&quot"); repeat split.
    + exists 38%N, 59%N, (js "#39;"), (js "&#39"); repeat split.
  - exists x, x, [], []; repeat split; assumption.
Qed.

Lemma flat_map_clean (t : jsstring) : clean (flat_map escapeChar t).
Proof.
  intros c Hc; apply in_flat_map in Hc as (x & _ & Hc).
  exact (escapeChar_clean x c Hc).
Qed.

Lemma flat_map_trimmed (t : jsstring) :
  trimmed t -> trimmed (flat_map escapeChar t).
Proof.
  intros [Hh Hl]; split.
  - destruct t as [|x r]; [exact I|]; cbn [flat_map].
    destruct (escapeChar_edges x Hh) as (f & _ & m & _ & -> & _ & Hf & _).
    exact Hf.
  - destruct (rev t) as [|x r] eqn:E.
    + apply (f_equal (@rev N)) in E; rewrite rev_involutive in E; subst t.
      exact I.
    + apply (f_equal (@rev N)) in E; rewrite rev_involutive in E; subst t.
      cbn [rev]; rewrite flat_map_app; cbn [flat_map].
      destruct (escapeChar_edges x Hl) as (_ & l & _ & m & _ & -> & _ & Hlast).
      rewrite app_nil_r, app_assoc, rev_app_distr; simpl; exact Hlast.
Qed.

Lemma flat_map_escapeChar_id (t : jsstring) :
  clean t -> flat_map escapeChar t = t.
Proof.
  induction t as [|x t IH]; intros H; [reflexivity|]; simpl.
  destruct (escapeChar_cases x) as [[Hx _] | [_ ->]].
  - exfalso; exact (H x (or_introl eq_refl) Hx).
  - simpl; f_equal; apply IH; intros c Hc; apply H; right; exact Hc.
Qed.

Lemma sanitizeInput_clean (input : jsstring) : clean (sanitizeInput input).
Proof. rewrite sanitizeInput_pointwise; apply flat_map_clean. Qed.

Lemma sanitizeInput_trimmed (input : jsstring) :
  trimmed (sanitizeInput input).
Proof.
  rewrite sanitizeInput_pointwise; apply flat_map_trimmed, trim_trimmed.
Qed.

Lemma sanitizeInput_length (input : jsstring) :
  List.length (trim input) <= List.length (sanitizeInput input)
  <= 6 * List.length (trim input).
Proof.
  rewrite sanitizeInput_pointwise.
  induction (trim input) as [|x t IH]; simpl; [lia|].
  rewrite length_app; pose proof (escapeChar_length x); lia.
Qed.

(** Whatever the input, the sanitized text holds none of the characters
    [<], [>], double quote and single quote, and neither begins nor ends
    with white space. *)
Theorem sanitizeInput_never_emits_markup (input : jsstring) :
  (forall c, In c (sanitizeInput input) ->
             c <> LT /\ c <> GT /\ c <> DQUOTE /\ c <> SQUOTE)
  /\ trimmed (sanitizeInput input).
Proof.
  split; [|apply sanitizeInput_trimmed].
  intros c Hc; pose proof (sanitizeInput_clean input c Hc) as H.
  simpl in H; repeat split; intros ->; apply H; tauto.
Qed.

(** Sanitizing twice is sanitizing once: text read back from the table and
    submitted again is stored as it was. *)
Theorem sanitizeInput_idempotent (input : jsstring) :
  sanitizeInput (sanitizeInput input) = sanitizeInput input.
Proof.
  rewrite (sanitizeInput_pointwise (sanitizeInput input)).
  rewrite (trim_id _ (sanitizeInput_trimmed input)).
  apply flat_map_escapeChar_id, sanitizeInput_clean.
Qed.

(** The sanitized text is at least as long as the trimmed input and at most
    six times as long; it has the same length exactly when the trimmed input
    holds none of the four characters. *)
Theorem sanitizeInput_length_bounds (input : jsstring) :
  List.length (trim input) <= List.length (sanitizeInput input)
  /\ List.length (sanitizeInput input) <= 6 * List.length (trim input)
  /\ (List.length (sanitizeInput input) = List.length (trim input)
      <-> clean (trim input)).
Proof.
  pose proof (sanitizeInput_length input) as [Hlo Hhi].
  split; [exact Hlo|]; split; [exact Hhi|].
  rewrite sanitizeInput_pointwise.
  clear Hlo Hhi; induction (trim input) as [|x t IH];
    cbn [flat_map List.length].
  - split; [intros _ c []|reflexivity].
  - rewrite length_app.
    assert (Ht : List.length t <= List.length (flat_map escapeChar t)).
    { clear IH; induction t as [|y t IHt]; cbn [flat_map List.length]; [lia|].
      rewrite length_app; pose proof (escapeChar_length y); lia. }
    destruct (escapeChar_cases x) as [[Hx He] | [Hx ->]].
    + split.
      * intros E; exfalso.
        simpl in He; destruct He as [He|[He|[He|[He|[]]]]];
          rewrite <- He in E; simpl in E; lia.
      * intros Hc; exfalso; exact (Hc x (or_introl eq_refl) Hx).
    + cbn [List.length]; split.
      * intros E; assert (E' : List.length (flat_map escapeChar t)
                               = List.length t) by lia.
        apply IH in E'; intros c [<- | Hc]; [exact Hx | exact (E' c Hc)].
      * intros Hc; cbn [Nat.add]; f_equal; apply IH.
        intros c Hin; apply Hc; right; exact Hin.
Qed.

(** ** Text as the database returns it *)

Lemma storedFrom_In pending s x :
  In x (storedFrom pending s) ->
  x = REPLACEMENT \/ In x s \/ pending = Some x.
Proof.
  revert pending; induction s as [|c rest IH]; intros pending H.
  - destruct pending; simpl in H; intuition.
  - destruct pending as [h|]; cbn [storedFrom] in H;
      destruct (isLowSurrogate c), (isHighSurrogate c);
      cbn [lone app In] in H;
      repeat (destruct H as [H|H]; [subst; simpl; auto|]);
      apply IH in H; simpl; intuition congruence.
Qed.

Lemma storedFrom_nil pending s :
  storedFrom pending s = [] -> pending = None /\ s = [].
Proof.
  revert pending; induction s as [|c rest IH]; intros [h|] H;
    cbn [storedFrom] in H; try discriminate.
  - auto.
  - destruct (isLowSurrogate c); [discriminate|].
    destruct (isHighSurrogate c); discriminate.
  - destruct (isHighSurrogate c); [apply IH in H as [H _]; discriminate|].
    destruct (isLowSurrogate c); discriminate.
Qed.

Lemma storedFrom_head s :
  match storedFrom None s with
  | [] => True
  | x :: _ => x = REPLACEMENT \/ exists rest, s = x :: rest
  end.
Proof.
  destruct s as [|c rest]; [exact I|]; cbn [storedFrom].
  destruct (isHighSurrogate c).
  - destruct rest as [|d rest]; cbn [storedFrom lone app]; [auto|].
    destruct (isLowSurrogate d); [right; eauto|].
    destruct (isHighSurrogate d); cbn [lone app]; auto.
  - destruct (isLowSurrogate c); cbn [lone app]; [auto | right; eauto].
Qed.

Lemma storedFrom_last s :
  forall pending,
    storedFrom pending s = []
    \/ exists l x, storedFrom pending s = l ++ [x]
                   /\ (x = REPLACEMENT \/ exists l', s = l' ++ [x]).
Proof.
  assert (Hlone : forall t : jsstring,
             exists l x, lone ++ t = l ++ [x]
                         /\ (t = [] -> x = REPLACEMENT)
                         /\ (forall l' y, t = l' ++ [y] -> x = y)).
  { intros t; destruct (@exists_last _ (lone ++ t)) as (l & x & E);
      [discriminate|].
    exists l, x; split; [exact E|]; split.
    - intros ->; change (lone ++ []) with ([REPLACEMENT; REPLACEMENT] ++ [REPLACEMENT]) in E.
      apply app_inj_tail in E as [_ E]; auto.
    - intros l' y ->; rewrite app_assoc in E.
      apply app_inj_tail in E as [_ E]; auto. }
  induction s as [|c rest IH]; intros pending.
  - destruct pending; [|left; reflexivity].
    right; exists [REPLACEMENT; REPLACEMENT], REPLACEMENT; auto.
  - right.
    assert (Hstep : forall (prefix : jsstring) next,
               (next = None -> exists front, prefix = front ++ [c]) ->
               exists l x, prefix ++ storedFrom next rest = l ++ [x]
                           /\ (x = REPLACEMENT
                               \/ exists l', c :: rest = l' ++ [x])).
    { intros prefix next Hprefix.
      destruct (IH next) as [E | (l & x & E & Hx)].
      - apply storedFrom_nil in E as [-> ->].
        destruct (Hprefix eq_refl) as (front & ->).
        exists front, c; cbn [storedFrom]; rewrite app_nil_r.
        split; [reflexivity|]; right; exists []; reflexivity.
      - exists (prefix ++ l), x; rewrite E, app_assoc.
        split; [reflexivity|].
        destruct Hx as [Hx | (l' & ->)]; [auto|].
        right; exists (c :: l'); reflexivity. }
    destruct pending as [h|]; cbn [storedFrom].
    + destruct (isLowSurrogate c).
      * apply (Hstep [h; c] None); intros _; exists [h]; reflexivity.
      * destruct (isHighSurrogate c).
        -- apply (Hstep lone (Some c)); discriminate.
        -- change (lone ++ c :: storedFrom None rest)
             with ((lone ++ [c]) ++ storedFrom None rest).
           apply (Hstep (lone ++ [c]) None); intros _; exists lone; reflexivity.
    + destruct (isHighSurrogate c).
      * apply (Hstep [] (Some c)); discriminate.
      * destruct (isLowSurrogate c).
        -- destruct (IH None) as [E | (l & x & E & Hx)].
           ++ apply storedFrom_nil in E as [_ ->]; cbn [storedFrom].
              exists [REPLACEMENT; REPLACEMENT], REPLACEMENT; auto.
           ++ exists (lone ++ l), x; rewrite E, app_assoc.
              split; [reflexivity|].
              destruct Hx as [Hx | (l' & ->)]; [auto|].
              right; exists (c :: l'); reflexivity.
        -- apply (Hstep [c] None); intros _; exists []; reflexivity.
Qed.

Lemma storedText_clean s : clean s -> clean (storedText s).
Proof.
  intros H x Hx; apply storedFrom_In in Hx as [-> | [Hx | Hx]];
    [|exact (H x Hx)|discriminate].
  simpl; intros [E|[E|[E|[E|[]]]]]; discriminate.
Qed.

Lemma storedText_trimmed s : trimmed s -> trimmed (storedText s).
Proof.
  intros [Hh Hl]; unfold storedText; split.
  - pose proof (storedFrom_head s) as H.
    destruct (storedFrom None s) as [|x out]; [exact I|].
    destruct H as [-> | (rest & ->)]; [reflexivity | exact Hh].
  - destruct (storedFrom_last s None) as [-> | (l & x & -> & Hx)]; [exact I|].
    rewrite rev_app_distr; cbn [rev app].
    destruct Hx as [-> | (l' & ->)]; [reflexivity|].
    rewrite rev_app_distr in Hl; exact Hl.
Qed.

Lemma storedFrom_length (pending : option N) s :
  List.length s + match pending with Some _ => 1 | None => 0 end
  <= List.length (storedFrom pending s)
  <= list_sum (map units s) + match pending with Some _ => 3 | None => 0 end.
Proof.
  revert pending; induction s as [|c rest IH]; intros pending.
  - destruct pending; simpl; lia.
  - pose proof (IH None) as H; pose proof (IH (Some c)) as H'.
    cbv beta iota in H, H'.
    change (list_sum (map units (c :: rest)))
      with (units c + list_sum (map units rest)).
    assert (Hu : units c
                 = if isHighSurrogate c || isLowSurrogate c then 3 else 1)
      by reflexivity.
    rewrite Hu; clear Hu.
    destruct pending; cbn [storedFrom];
      destruct (isLowSurrogate c), (isHighSurrogate c);
      cbn [orb lone app List.length]; lia.
Qed.

Lemma escaped_units (t : jsstring) :
  list_sum (map units (flat_map escapeChar t)) <= 6 * List.length t.
Proof.
  induction t as [|x t IH]; cbn [flat_map List.length]; [simpl; lia|].
  rewrite map_app, list_sum_app.
  assert (list_sum (map units (escapeChar x)) <= 6); [|lia].
  destruct (escapeChar_cases x) as [[_ H] | [_ ->]].
  - simpl in H; destruct H as [<-|[<-|[<-|[<-|[]]]]]; simpl; lia.
  - change (list_sum (map units [x])) with (units x + 0); unfold units.
    destruct (_ || _); lia.
Qed.

Lemma storedText_length (input : jsstring) :
  List.length (trim input)
  <= List.length (storedText (sanitizeInput input))
  <= 6 * List.length (trim input).
Proof.
  pose proof (storedFrom_length None (sanitizeInput input)) as H.
  pose proof (sanitizeInput_length input) as H'.
  cbv beta iota in H; fold (storedText (sanitizeInput input)) in H.
  pose proof (escaped_units (trim input)) as Hunits.
  rewrite <- sanitizeInput_pointwise in Hunits; lia.
Qed.

(** ** What a request does to the environment *)

Lemma createComment_full rt request env body p a c :
  json request = Some body ->
  property body (js "page_url") = Some (Str p) ->
  property body (js "author_name") = Some (Str a) ->
  property body (js "comment_content") = Some (Str c) ->
  validate rt (Str p) (Str a) (Str c) = [] ->
  available (DB env) = true ->
  (MAX_ROWID <= largestRowid (DB env))%Z ->
  createComment rt request env
  = (errorResponse 500 "Failed to create comment", sent env).
Proof.
  intros Hj Hp Ha Hc Hv Hav Hfull; unfold createComment.
  rewrite Hj, Hp, Ha, Hc, Hv, Hav; cbn [List.length Nat.ltb Nat.leb].
  rewrite (insert_full _ _ _ _ Hfull); reflexivity.
Qed.

Lemma createComment_effect rt request env :
  method request = js "POST" ->
  pathname request = js "/api/comments" ->
  Effect request env (fst (createComment rt request env))
    (snd (createComment rt request env)).
Proof.
  intros Hm Hpath.
  destruct (json request) as [body|] eqn:Hj;
    [|unfold createComment; rewrite Hj; apply NoStatement; reflexivity].
  destruct (property body (js "page_url")) as [p|] eqn:Hp;
    [|unfold createComment; rewrite Hj, Hp; apply NoStatement; reflexivity].
  destruct (property body (js "author_name")) as [a|] eqn:Ha;
    [|unfold createComment; rewrite Hj, Hp, Ha; apply NoStatement; reflexivity].
  destruct (property body (js "comment_content")) as [c|] eqn:Hc;
    [|unfold createComment; rewrite Hj, Hp, Ha, Hc; apply NoStatement; reflexivity].
  destruct (validate rt p a c) as [|e errors] eqn:Hv;
    [|unfold createComment; rewrite Hj, Hp, Ha, Hc, Hv; apply NoStatement; reflexivity].
  destruct (available (DB env)) eqn:Hav.
  - destruct p as [| | | |p| |];
      try (unfold createComment; rewrite Hj, Hp, Ha, Hc, Hv;
           apply NoStatement; reflexivity).
    destruct a as [| | | |a| |];
      try (unfold createComment; rewrite Hj, Hp, Ha, Hc, Hv;
           apply NoStatement; reflexivity).
    destruct c as [| | | |c| |];
      try (unfold createComment; rewrite Hj, Hp, Ha, Hc, Hv;
           apply NoStatement; reflexivity).
    destruct (Z.ltb_spec (largestRowid (DB env)) MAX_ROWID) as [Hroom|Hfull].
    + rewrite (createComment_accepts rt request env body p a c
                 Hj Hp Ha Hc Hv Hav Hroom).
      apply Inserted; assumption.
    + rewrite (createComment_full rt request env body p a c
                 Hj Hp Ha Hc Hv Hav Hfull).
      apply NoChange; reflexivity.
  - unfold createComment; rewrite Hj, Hp, Ha, Hc, Hv, Hav.
    destruct p, a, c; first [apply NoStatement; reflexivity | apply NoChange; reflexivity].
Qed.

Lemma deleteComment_effect request env commentId :
  method request = js "DELETE" ->
  Effect request env (fst (deleteComment request env commentId))
    (snd (deleteComment request env commentId)).
Proof.
  intros Hm; unfold deleteComment.
  destruct (unauthorized _ _); [apply NoStatement; reflexivity|].
  destruct (isEmpty commentId || negb (allDigits commentId));
    [apply NoStatement; reflexivity|].
  destruct (available (DB env)) eqn:Hav; [|apply NoChange; reflexivity].
  cbv zeta; destruct (byId _ _); [|apply NoChange; reflexivity].
  apply (Removed request env (toInteger commentId) Hm Hav).
Qed.

Lemma getComments_effect rt request env :
  Effect request env (fst (getComments rt request env))
    (snd (getComments rt request env)).
Proof.
  unfold getComments.
  destruct (get _ _) as [pageUrl|]; [|apply NoStatement; reflexivity].
  destruct (isEmpty pageUrl); [apply NoStatement; reflexivity|].
  destruct (negb _); [apply NoStatement; reflexivity|].
  destruct (available (DB env)); apply NoChange; reflexivity.
Qed.

Lemma getAllComments_effect rt request env :
  Effect request env (fst (getAllComments rt request env))
    (snd (getAllComments rt request env)).
Proof.
  unfold getAllComments.
  destruct (unauthorized _ _); [apply NoStatement; reflexivity|].
  destruct (available (DB env)); apply NoChange; reflexivity.
Qed.

Lemma fetch_effect rt request env :
  Effect request env (fst (fetch rt request env)) (snd (fetch rt request env)).
Proof.
  unfold fetch.
  destruct (streq (method request) (js "OPTIONS")); [apply NoStatement; reflexivity|].
  destruct (streq (pathname request) (js "/api/comments")) eqn:Hpath.
  { destruct (streq (method request) (js "GET"));
      [apply getComments_effect|].
    destruct (streq (method request) (js "POST")) eqn:Hm;
      [|apply NoStatement; reflexivity].
    apply createComment_effect; apply streq_eq; assumption. }
  destruct (_ && _); [apply getAllComments_effect|].
  destruct (deleteMatch (pathname request)) as [commentId|].
  - destruct (streq (method request) (js "DELETE")) eqn:Hm.
    + apply deleteComment_effect, streq_eq, Hm.
    + destruct (_ && _); [destruct (unauthorized _ _); apply NoStatement; reflexivity|].
      destruct (_ && _); apply NoStatement; reflexivity.
  - destruct (_ && _); [destruct (unauthorized _ _); apply NoStatement; reflexivity|].
    destruct (_ && _); apply NoStatement; reflexivity.
Qed.

Lemma createdRow_sanitized env p a c : sanitizedRow (createdRow env p a c).
Proof.
  unfold sanitizedRow, createdRow; simpl.
  repeat split;
    first [apply storedText_clean, sanitizeInput_clean
          | apply (proj1 (storedText_trimmed _ (sanitizeInput_trimmed _)))
          | apply (proj2 (storedText_trimmed _ (sanitizeInput_trimmed _)))].
Qed.


(** ** Ids *)

Lemma maxId_app rows row :
  maxId (rows ++ [row]) = Z.max (maxId rows) (Z.max (id row) 0).
Proof.
  induction rows as [|c rows IH]; [simpl; lia|].
  change (maxId ((c :: rows) ++ [row]))
    with (Z.max (id c) (maxId (rows ++ [row]))).
  change (maxId (c :: rows)) with (Z.max (id c) (maxId rows)).
  rewrite IH; lia.
Qed.

Lemma maxId_filter (keep : Comment -> bool) rows :
  (maxId (filter keep rows) <= maxId rows)%Z.
Proof.
  induction rows as [|c rows IH]; simpl; [lia|].
  destruct (keep c); simpl; lia.
Qed.

Lemma fetch_largestRowid rt request env :
  (largestRowid (DB (snd (fetch rt request env))) <= largestRowid (DB env) + 1)%Z.
Proof.
  destruct (fetch_effect rt request env)
    as [r Hr | r Hr | p a c Hm Hpath Hav Hroom | n Hm];
    unfold largestRowid;
    cbn [sent withComments DB comments sequence]; try lia.
  - pose proof (maxId_nonneg (comments (DB env))).
    rewrite maxId_app; cbn [createdRow id]; unfold largestRowid; lia.
  - pose proof (maxId_filter (fun c => negb (Z.eqb (id c) n))
                  (comments (DB env))); lia.
Qed.

Lemma fetch_rows rt request env :
  (sequence (DB env) <= sequence (DB (snd (fetch rt request env))))%Z
  /\ forall c, In c (comments (DB (snd (fetch rt request env)))) ->
               In c (comments (DB env)) \/ (sequence (DB env) < id c)%Z.
Proof.
  destruct (fetch_effect rt request env)
    as [r Hr | r Hr | p a c Hm Hpath Hav Hroom | n Hm];
    cbn [sent withComments DB comments sequence].
  - split; [lia | auto].
  - split; [lia | auto].
  - destruct (largestRowid_bounds (DB env)) as (_ & Hs & _).
    split; [lia|]; intros d Hd; apply in_app_or in Hd as [Hd | [<- | []]];
      [auto | right; cbn [createdRow id]; lia].
  - split; [lia|]; intros c Hc; apply filter_In in Hc as [Hc _]; auto.
Qed.

Lemma fetch_created_id rt request env :
  exactIds (DB env) ->
  Forall (fun i => (sequence (DB env) < i
                    <= sequence (DB (snd (fetch rt request env))))%Z
                   /\ forall c, In c (comments (DB env)) -> id c <> i)
    (createdIds [fst (fetch rt request env)]).
Proof.
  intros Hexact.
  destruct (fetch_effect rt request env)
    as [r Hr | r Hr | p a c Hm Hpath Hav Hroom | n Hm];
    unfold createdIds; cbn [flat_map sent withComments DB sequence
                            Response.body app].
  - unfold reportsChange in Hr; destruct (Response.body r) as [| | | | [?|] | |];
      try discriminate; constructor.
  - unfold reportsChange in Hr; destruct (Response.body r) as [| | | | [?|] | |];
      try discriminate; constructor.
  - rewrite (readBack_exact env p a c Hexact); cbn [createdRow id].
    destruct (largestRowid_bounds (DB env)) as (_ & Hs & Hc).
    constructor; [|constructor].
    split; [lia|]; intros d Hd E; specialize (Hc d Hd); lia.
  - constructor.
Qed.

Lemma serve_cons rt request rest env :
  serve rt (request :: rest) env
  = (fst (fetch rt request env)
       :: fst (serve rt rest (snd (fetch rt request env))),
     snd (serve rt rest (snd (fetch rt request env)))).
Proof.
  simpl; destruct (fetch rt request env) as [r env1]; simpl.
  destruct (serve rt rest env1); reflexivity.
Qed.

Lemma createdIds_cons r rs :
  createdIds (r :: rs) = createdIds [r] ++ createdIds rs.
Proof. unfold createdIds; simpl; rewrite app_nil_r; reflexivity. Qed.

Lemma serve_created_ids rt requests :
  forall env,
    (largestRowid (DB env) + Z.of_nat (List.length requests) <= MAX_EXACT)%Z ->
    (sequence (DB env) <= sequence (DB (snd (serve rt requests env))))%Z
    /\ Forall (fun i => (sequence (DB env) < i
                         <= sequence (DB (snd (serve rt requests env))))%Z)
         (createdIds (fst (serve rt requests env)))
    /\ StronglySorted Z.lt (createdIds (fst (serve rt requests env))).
Proof.
  induction requests as [|request rest IH]; intros env Hroom.
  - simpl; repeat split; try lia; constructor.
  - rewrite serve_cons; cbn [fst snd]; rewrite createdIds_cons.
    cbn [List.length] in Hroom.
    assert (Hexact : exactIds (DB env)) by (unfold exactIds; lia).
    destruct (fetch_rows rt request env) as [Hseq _].
    pose proof (fetch_created_id rt request env Hexact) as Hnew.
    pose proof (fetch_largestRowid rt request env) as Hlargest.
    destruct (IH (snd (fetch rt request env))) as (Hseq' & Hall & Hsorted);
      [lia|].
    split; [lia|]; split.
    + apply Forall_app; split.
      * eapply Forall_impl; [|exact Hnew]; cbv beta; intros i [Hi _]; lia.
      * eapply Forall_impl; [|exact Hall]; cbv beta; intros i Hi; lia.
    + destruct (createdIds [fst (fetch rt request env)]) as [|i ids] eqn:E;
        [exact Hsorted|].
      assert (ids = []) as ->.
      { unfold createdIds in E; simpl in E; rewrite app_nil_r in E.
        destruct (Response.body _) as [| | | | [?|] | |]; try discriminate.
        injection E as _ <-; reflexivity. }
      simpl; constructor; [exact Hsorted|].
      inversion Hnew as [|? ? [Hi _] _]; subst.
      eapply Forall_impl; [|exact Hall]; cbv beta; intros j Hj; lia.
Qed.

(** Ids are handed out in increasing order: over any run of requests that
    stays within the row ids a JavaScript number holds exactly (up to
    2^53), whatever is deleted in between, the ids of the comments reported
    as created increase strictly, and each is larger than the AUTOINCREMENT
    counter the run started with. *)
Theorem created_ids_increase rt requests env :
  (largestRowid (DB env) + Z.of_nat (List.length requests) <= MAX_EXACT)%Z ->
  StronglySorted Z.lt (createdIds (fst (serve rt requests env)))
  /\ Forall (fun i => (sequence (DB env) < i)%Z)
       (createdIds (fst (serve rt requests env))).
Proof.
  intros Hroom.
  destruct (serve_created_ids rt requests env Hroom) as (_ & Hall & Hsorted).
  split; [exact Hsorted|].
  eapply Forall_impl; [|exact Hall]; cbv beta; intros i Hi; lia.
Qed.

Lemma created_ids_increase_witness :
  createdIds (fst (serve stableRuntime postDeletePost devEnv)) = [2; 3]%Z
  /\ StronglySorted Z.lt
       (createdIds (fst (serve stableRuntime postDeletePost devEnv))).
Proof.
  split; [reflexivity|].
  apply (created_ids_increase stableRuntime postDeletePost devEnv).
  unfold MAX_EXACT; simpl; lia.
Defined.

Lemma NoDup_map_filter (f : Comment -> Z) (keep : Comment -> bool) rows :
  NoDup (map f rows) -> NoDup (map f (filter keep rows)).
Proof.
  induction rows as [|c rows IH]; simpl; intros H; [constructor|].
  inversion H as [|? ? Hnotin Hrest]; subst.
  destruct (keep c); [|apply IH, Hrest].
  simpl; constructor; [|apply IH, Hrest].
  intros Hin; apply Hnotin.
  apply in_map_iff in Hin as (d & Hd & Hin).
  apply filter_In in Hin as [Hin _].
  apply in_map_iff; exists d; auto.
Qed.

Lemma fetch_keyed rt request env :
  keyed (DB env) -> keyed (DB (snd (fetch rt request env))).
Proof.
  intros [Hnd Hle].
  destruct (fetch_effect rt request env)
    as [r Hr | r Hr | p a c Hm Hpath Hav Hroom | n Hm];
    unfold keyed;
    cbn [sent withComments DB comments sequence]; auto.
  - destruct (largestRowid_bounds (DB env)) as (_ & Hs & Hc).
    split.
    + rewrite map_app; cbn [map createdRow id].
      apply NoDup_app; repeat split; auto.
      * constructor; [intros []|constructor].
      * intros i Hi [<- | []].
        apply in_map_iff in Hi as (d & Hd & Hin).
        specialize (Hc d Hin); lia.
    + apply Forall_app; split.
      * eapply Forall_impl; [|exact Hle]; cbv beta; intros d Hd; lia.
      * constructor; [cbn [createdRow id]; lia | constructor].
  - split; [apply NoDup_map_filter, Hnd|].
    apply Forall_forall; intros d Hd; apply filter_In in Hd as [Hd _].
    rewrite Forall_forall in Hle; exact (Hle d Hd).
Qed.

Lemma serve_rows rt requests :
  forall env,
    (sequence (DB env) <= sequence (DB (snd (serve rt requests env))))%Z
    /\ forall c, In c (comments (DB (snd (serve rt requests env)))) ->
                 In c (comments (DB env)) \/ (sequence (DB env) < id c)%Z.
Proof.
  induction requests as [|request rest IH]; intros env.
  - simpl; split; [lia | auto].
  - rewrite serve_cons; cbn [snd].
    destruct (fetch_rows rt request env) as [Hseq Hrows].
    destruct (IH (snd (fetch rt request env))) as [Hseq' Hrows'].
    split; [lia|]; intros c Hc.
    destruct (Hrows' c Hc) as [H | H]; [|right; lia].
    destruct (Hrows c H) as [H' | H']; auto.
Qed.

(** The primary key holds over any run: if no two rows share an id and no
    id exceeds the AUTOINCREMENT counter, the same is true after the run;
    the counter never goes back; and a row the table holds after the run is
    a row it held at the start or has an id above the counter of the start:
    no row written in the run takes the id of a row the table held at its
    start, deleted since or not. *)
Theorem ids_stay_distinct_and_are_not_reused rt requests env :
  keyed (DB env) ->
  keyed (DB (snd (serve rt requests env)))
  /\ (sequence (DB env) <= sequence (DB (snd (serve rt requests env))))%Z
  /\ (forall c, In c (comments (DB (snd (serve rt requests env)))) ->
                In c (comments (DB env)) \/ (sequence (DB env) < id c)%Z)
  /\ (forall c d, In c (comments (DB (snd (serve rt requests env)))) ->
                  In d (comments (DB env)) ->
                  id c = id d -> c = d).
Proof.
  intros Hk.
  destruct (serve_rows rt requests env) as [Hseq Hrows].
  assert (Hkeyed : keyed (DB (snd (serve rt requests env)))).
  { clear Hseq Hrows.
    revert env Hk; induction requests as [|request rest IH]; intros env Hk;
      [exact Hk|].
    rewrite serve_cons; cbn [snd]; apply IH, fetch_keyed, Hk. }
  repeat split; try assumption; try apply Hkeyed.
  intros c d Hc Hd E.
  destruct Hk as [Hnd Hle]; rewrite Forall_forall in Hle.
  destruct (Hrows c Hc) as [Hc' | Hc'];
    [|specialize (Hle d Hd); lia].
  clear - Hnd Hc' Hd E.
  induction (comments (DB env)) as [|x rows IH]; [destruct Hd|].
  inversion Hnd as [|? ? Hnotin Hrest]; subst.
  destruct Hc' as [-> | Hc'], Hd as [-> | Hd]; auto.
  - exfalso; apply Hnotin; rewrite E; apply in_map; exact Hd.
  - exfalso; apply Hnotin; rewrite <- E; apply in_map; exact Hc'.
Qed.

Lemma ids_stay_distinct_and_are_not_reused_witness :
  map id (comments (DB (snd (serve stableRuntime postDeletePost devEnv))))
  = [2; 3]%Z
  /\ keyed (DB (snd (serve stableRuntime postDeletePost devEnv))).
Proof.
  split; [reflexivity|].
  apply (ids_stay_distinct_and_are_not_reused stableRuntime postDeletePost
           devEnv).
  split; [repeat constructor; intros [] | repeat constructor; simpl; lia].
Defined.

(** ** What the table holds *)

Lemma fetch_sanitized rt request env :
  Forall sanitizedRow (comments (DB env)) ->
  Forall sanitizedRow (comments (DB (snd (fetch rt request env)))).
Proof.
  intros H.
  destruct (fetch_effect rt request env)
    as [r Hr | r Hr | p a c Hm Hpath Hav Hroom | n Hm];
    cbn [sent withComments DB comments]; auto.
  - apply Forall_app; split; [exact H|].
    constructor; [apply createdRow_sanitized | constructor].
  - apply Forall_forall; intros d Hd; apply filter_In in Hd as [Hd _].
    rewrite Forall_forall in H; exact (H d Hd).
Qed.

(** The worker writes sanitized rows only: if every row of the table has
    its three text columns trimmed and free of [<], [>] and both quotes,
    and the status [approved], the same is true after any run of requests.
    In particular every comment is public from the moment it is stored. *)
Theorem table_stays_sanitized rt requests env :
  Forall sanitizedRow (comments (DB env)) ->
  Forall sanitizedRow (comments (DB (snd (serve rt requests env)))).
Proof.
  revert env; induction requests as [|request rest IH]; intros env H;
    [exact H|].
  rewrite serve_cons; cbn [snd]; apply IH, fetch_sanitized, H.
Qed.

Lemma table_stays_sanitized_witness :
  Forall sanitizedRow
    (comments (DB (snd (serve stableRuntime [quotedPost; plainPost] freshEnv)))).
Proof.
  apply (table_stays_sanitized stableRuntime [quotedPost; plainPost] freshEnv).
  constructor.
Defined.

(** ** Stored lengths *)

(** A submission passes the length checks on its trimmed, unescaped text
    and is stored escaped, as UTF-8: while the table has a row id left, the
    row it appends has an [author_name] of between 1 and 600 code units and
    a [comment_content] of between 1 and 6000. *)
Theorem stored_lengths_are_bounded rt request env body p a c :
  method request = js "POST" ->
  pathname request = js "/api/comments" ->
  json request = Some body ->
  property body (js "page_url") = Some (Str p) ->
  property body (js "author_name") = Some (Str a) ->
  property body (js "comment_content") = Some (Str c) ->
  validate rt (Str p) (Str a) (Str c) = [] ->
  available (DB env) = true ->
  (largestRowid (DB env) < MAX_ROWID)%Z ->
  exists row,
    Response.status (fst (fetch rt request env)) = 201%Z
    /\ comments (DB (snd (fetch rt request env))) = comments (DB env) ++ [row]
    /\ 1 <= List.length (author_name row) <= 6 * 100
    /\ 1 <= List.length (comment_content row) <= 6 * 1000.
Proof.
  intros Hm Hpath Hj Hp Ha Hc Hv Hav Hroom.
  rewrite (fetch_createComment rt request env Hm Hpath).
  rewrite (createComment_accepts rt request env body p a c
             Hj Hp Ha Hc Hv Hav Hroom).
  exists (createdRow env p a c); cbn [fst snd].
  destruct (validate_nil rt _ _ _ Hv) as (_ & (a' & Ea & Hla) & (c' & Ec & Hlc)).
  injection Ea as <-; injection Ec as <-.
  pose proof (storedText_length a); pose proof (storedText_length c).
  split; [reflexivity|]; split; [reflexivity|].
  unfold createdRow; simpl; lia.
Qed.

Lemma stored_lengths_are_bounded_witness :
  exists row,
    comments (DB (snd (fetch stableRuntime quotesPost devEnv)))
    = comments (DB devEnv) ++ [row]
    /\ 1 <= List.length (author_name row) <= 6 * 100
    /\ 1 <= List.length (comment_content row) <= 6 * 1000.
Proof.
  destruct (stored_lengths_are_bounded stableRuntime quotesPost devEnv
              (Object [(js "page_url", Str (js "https://example.com/post"));
                       (js "author_name", Str (repeat DQUOTE 100));
                       (js "comment_content", Str (repeat DQUOTE 1000))])
              (js "https://example.com/post")
              (repeat DQUOTE 100) (repeat DQUOTE 1000)
              eq_refl eq_refl eq_refl eq_refl eq_refl eq_refl
              eq_refl eq_refl eq_refl)
    as (row & _ & H2 & H3 & H4).
  exists row; auto.
Defined.

(** Both bounds are reached. *)
Lemma stored_lengths_reach_the_bounds :
  forall row,
    comments (DB (snd (fetch stableRuntime quotesPost devEnv)))
    = comments (DB devEnv) ++ [row] ->
    List.length (author_name row) = 6 * 100
    /\ List.length (comment_content row) = 6 * 1000.
Proof.
  intros row H.
  rewrite (fetch_createComment stableRuntime quotesPost devEnv
             eq_refl eq_refl) in H.
  rewrite (createComment_accepts stableRuntime quotesPost devEnv
             _ _ _ _ eq_refl eq_refl eq_refl eq_refl eq_refl eq_refl
             eq_refl) in H.
  cbn [snd sent withComments DB comments] in H.
  apply app_inv_head in H; injection H as <-.
  split; vm_compute; reflexivity.
Qed.

(** ** The shape of responses *)

Lemma wf_error status error :
  In status [400; 401; 404; 500]%Z ->
  wellFormedResponse (errorResponse status error).
Proof.
  intros H; unfold wellFormedResponse, errorResponse; simpl.
  repeat split.
  - simpl in H; tauto.
  - left; apply incl_tl, incl_refl.
  - simpl in H; lia.
Qed.

Lemma wf_json_ok status body :
  isJson body = true ->
  match body with
  | CommentsJson _ results count =>
      status = 200%Z /\ count = List.length results
  | CreatedJson _ => status = 201%Z
  | DeletedJson _ => status = 200%Z
  | _ => False
  end ->
  wellFormedResponse {| Response.status := status; Response.body := body;
                        Response.headers := jsonHeaders |}.
Proof.
  intros Hj Hb; unfold wellFormedResponse; simpl.
  split; [|split; [reflexivity|split; [left; apply incl_tl, incl_refl|]]].
  - destruct body; try contradiction; simpl; intuition lia.
  - destruct body; try contradiction; exact Hb.
Qed.

Lemma wf_text text :
  wellFormedResponse (plain 200 text corsHeaders)
  /\ wellFormedResponse (plain 405 "Method not allowed" [])
  /\ wellFormedResponse (plain 401 "Unauthorized" []).
Proof.
  unfold wellFormedResponse; simpl; repeat split;
    try tauto; try discriminate.
  left; apply incl_refl.
Qed.

Lemma wf_html page :
  wellFormedResponse
    {| Response.status := 200; Response.body := Html page;
       Response.headers := htmlHeaders |}.
Proof.
  unfold wellFormedResponse; simpl; repeat split; try tauto.
  - discriminate.
  - left; apply incl_tl, incl_refl.
Qed.

Lemma getComments_wf rt request env :
  wellFormedResponse (fst (getComments rt request env)).
Proof.
  unfold getComments.
  destruct (get _ _) as [pageUrl|]; [|apply wf_error; simpl; tauto].
  destruct (isEmpty pageUrl); [apply wf_error; simpl; tauto|].
  destruct (negb _); [apply wf_error; simpl; tauto|].
  destruct (available (DB env)); [|apply wf_error; simpl; tauto].
  apply wf_json_ok; [reflexivity | split; reflexivity].
Qed.

Lemma getAllComments_wf rt request env :
  wellFormedResponse (fst (getAllComments rt request env)).
Proof.
  unfold getAllComments.
  destruct (unauthorized _ _); [apply wf_error; simpl; tauto|].
  destruct (available (DB env)); [|apply wf_error; simpl; tauto].
  apply wf_json_ok; [reflexivity | split; reflexivity].
Qed.

Lemma deleteComment_wf request env commentId :
  wellFormedResponse (fst (deleteComment request env commentId)).
Proof.
  unfold deleteComment.
  destruct (unauthorized _ _); [apply wf_error; simpl; tauto|].
  destruct (_ || _); [apply wf_error; simpl; tauto|].
  destruct (available (DB env)); [|apply wf_error; simpl; tauto].
  cbv zeta; destruct (byId _ _); [|apply wf_error; simpl; tauto].
  apply wf_json_ok; reflexivity.
Qed.

Lemma createComment_wf rt request env :
  wellFormedResponse (fst (createComment rt request env)).
Proof.
  assert (Hfailed : wellFormedResponse
                      (errorResponse 500 "Failed to create comment"))
    by (apply wf_error; simpl; tauto).
  destruct (json request) as [body|] eqn:Hj;
    [|unfold createComment; rewrite Hj; exact Hfailed].
  destruct (property body (js "page_url")) as [p|] eqn:Hp;
    [|unfold createComment; rewrite Hj, Hp; exact Hfailed].
  destruct (property body (js "author_name")) as [a|] eqn:Ha;
    [|unfold createComment; rewrite Hj, Hp, Ha; exact Hfailed].
  destruct (property body (js "comment_content")) as [c|] eqn:Hc;
    [|unfold createComment; rewrite Hj, Hp, Ha, Hc; exact Hfailed].
  destruct (validate rt p a c) as [|e errors] eqn:Hv.
  - destruct (available (DB env)) eqn:Hav.
    + destruct p as [| | | |p| |];
        try (unfold createComment; rewrite Hj, Hp, Ha, Hc, Hv; exact Hfailed).
      destruct a as [| | | |a| |];
        try (unfold createComment; rewrite Hj, Hp, Ha, Hc, Hv; exact Hfailed).
      destruct c as [| | | |c| |];
        try (unfold createComment; rewrite Hj, Hp, Ha, Hc, Hv; exact Hfailed).
      destruct (Z.ltb_spec (largestRowid (DB env)) MAX_ROWID) as [Hroom|Hfull].
      * rewrite (createComment_accepts rt request env body p a c
                   Hj Hp Ha Hc Hv Hav Hroom).
        apply wf_json_ok; reflexivity.
      * rewrite (createComment_full rt request env body p a c
                   Hj Hp Ha Hc Hv Hav Hfull).
        exact Hfailed.
    + unfold createComment; rewrite Hj, Hp, Ha, Hc, Hv, Hav.
      destruct p, a, c; exact Hfailed.
  - unfold createComment; rewrite Hj, Hp, Ha, Hc, Hv.
    unfold wellFormedResponse; simpl.
    repeat split; try tauto; try lia.
    left; apply incl_tl, incl_refl.
Qed.

(** Every response of [fetch] is well formed: its status is one of 200,
    201, 400, 401, 404, 405 and 500; a JSON body comes with
    [Content-Type: application/json]; the worker sets the three CORS
    headers, except on the two plain-text refusals (405, and 401 on
    [/admin]); an error body never comes with a success status nor a
    success body with an error status; and [count] is the number of
    comments in the list. *)
Theorem responses_are_well_formed rt request env :
  wellFormedResponse (fst (fetch rt request env)).
Proof.
  destruct (wf_text EmptyString) as (_ & H405 & H401).
  unfold fetch.
  destruct (streq (method request) (js "OPTIONS")).
  { unfold wellFormedResponse, handleOptions; simpl; repeat split; try tauto.
    - discriminate.
    - left; apply incl_refl. }
  destruct (streq (pathname request) (js "/api/comments")).
  { destruct (streq (method request) (js "GET")); [apply getComments_wf|].
    destruct (streq (method request) (js "POST")); [apply createComment_wf|].
    exact H405. }
  destruct (_ && _); [apply getAllComments_wf|].
  assert (Hrest :
    wellFormedResponse
      (fst (if streq (pathname request) (js "/admin")
               && streq (method request) (js "GET")
            then
              if unauthorized (get (js "secret") (searchParams request))
                   (adminSecret env)
              then (plain 401 "Unauthorized" [], env)
              else ({| Response.status := 200;
                       Response.body := Html AdminHTML;
                       Response.headers := htmlHeaders |}, env)
            else
              if streq (pathname request) (js "/comment-widget")
                 && streq (method request) (js "GET")
              then ({| Response.status := 200;
                       Response.body :=
                         Html (CommentWidgetHTML
                                 match get (js "page_url")
                                         (searchParams request) with
                                 | Some p => p
                                 | None => []
                                 end);
                       Response.headers := htmlHeaders |}, env)
              else (plain 200 "Blog Comment System API" corsHeaders, env)))).
  { destruct (_ && _).
    - destruct (unauthorized _ _); [exact H401 | apply wf_html].
    - destruct (_ && _); [apply wf_html | apply wf_text]. }
  destruct (deleteMatch (pathname request)) as [commentId|]; [|exact Hrest].
  destruct (streq (method request) (js "DELETE")); [|exact Hrest].
  apply deleteComment_wf.
Qed.

(** ** The admin secret, whatever is configured *)

(** On the three admin routes a request passes exactly when its [secret]
    parameter is the resolved secret: any other value, the empty string and
    no value at all are answered 401 with the environment untouched.  Once
    a non-empty [ADMIN_SECRET_KEY] other than the built-in default is
    configured, the built-in default is refused like any other value. *)
Theorem admin_routes_require_the_configured_secret rt request env :
  adminGated request = true ->
  (get (js "secret") (searchParams request) = Some (adminSecret env) ->
   Response.status (fst (fetch rt request env)) <> 401%Z)
  /\ (get (js "secret") (searchParams request) <> Some (adminSecret env) ->
      Response.status (fst (fetch rt request env)) = 401%Z
      /\ snd (fetch rt request env) = env)
  /\ (get (js "secret") (searchParams request) = Some [] ->
      Response.status (fst (fetch rt request env)) = 401%Z)
  /\ (forall key,
         ADMIN_SECRET_KEY env = Some key ->
         key <> [] -> key <> js "admin-secret-key" ->
         get (js "secret") (searchParams request)
         = Some (js "admin-secret-key") ->
         Response.status (fst (fetch rt request env)) = 401%Z).
Proof.
  intros Hgate.
  assert (Hmain :
    (get (js "secret") (searchParams request) = Some (adminSecret env) ->
     Response.status (fst (fetch rt request env)) <> 401%Z)
    /\ (get (js "secret") (searchParams request) <> Some (adminSecret env) ->
        Response.status (fst (fetch rt request env)) = 401%Z
        /\ snd (fetch rt request env) = env)).
  { unfold adminGated in Hgate.
    apply orb_true_iff in Hgate as [Hgate | Hgate];
      [apply orb_true_iff in Hgate as [Hgate | Hgate]|];
      apply andb_true_iff in Hgate as [Hm Hp]; apply streq_eq in Hm.
    - apply streq_eq in Hp.
      rewrite (fetch_getAll rt request env Hm Hp); split; intros Hs.
      + rewrite (getAllComments_authorized rt request env Hs).
        destruct (available (DB env)); simpl; discriminate.
      + rewrite (getAllComments_unauthorized rt request env Hs); auto.
    - destruct (deleteMatch (pathname request)) as [commentId|] eqn:Hd;
        [|discriminate].
      rewrite (fetch_delete rt request env commentId Hm Hd).
      destruct (deleteMatch_Some _ _ Hd) as (Hdigits & _).
      split; intros Hs.
      + pose proof (deleteComment_authorized_status request env commentId
                      Hs Hdigits) as Hin.
        intros E; rewrite E in Hin; simpl in Hin.
        repeat destruct Hin as [Hin | Hin]; try discriminate; exact Hin.
      + rewrite (deleteComment_unauthorized request env commentId Hs); auto.
    - apply streq_eq in Hp.
      rewrite (fetch_admin rt request env Hm Hp); split; intros Hs.
      + apply authorized_iff in Hs; rewrite Hs; simpl; discriminate.
      + apply unauthorized_iff in Hs; rewrite Hs; auto. }
  destruct Hmain as [Hyes Hno].
  split; [exact Hyes|]; split; [exact Hno|]; split.
  - intros Hs; apply Hno; rewrite Hs; intros E.
    pose proof (adminSecret_nonempty env) as Hne.
    replace (adminSecret env) with (@nil N) in Hne by congruence.
    discriminate.
  - intros key Hkey Hne Hdef Hs; apply Hno; rewrite Hs.
    unfold adminSecret; rewrite Hkey.
    destruct key as [|k key]; [contradiction|]; cbn [isEmpty].
    intros E; apply Hdef; congruence.
Qed.

Lemma admin_routes_require_the_configured_secret_witness :
  Response.status
    (fst (fetch stableRuntime
            (getRequest "/admin" [("secret", "env-secret-5678")]%string)
            kvEnv)) <> 401%Z
  /\ Response.status
       (fst (fetch stableRuntime
               (getRequest "/admin" [("secret", "admin-secret-key")]%string)
               kvEnv)) = 401%Z.
Proof.
  split.
  - apply (admin_routes_require_the_configured_secret stableRuntime
             (getRequest "/admin" [("secret", "env-secret-5678")]%string)
             kvEnv); reflexivity.
  - destruct (admin_routes_require_the_configured_secret stableRuntime
                (getRequest "/admin" [("secret", "admin-secret-key")]%string)
                kvEnv eq_refl) as (_ & _ & _ & Hdefault).
    apply (Hdefault (js "env-secret-5678")); [reflexivity | | | reflexivity];
      discriminate.
Defined.

(** ** The admin listing *)

Lemma StronglySorted_weaken (R R' : Comment -> Comment -> Prop) rows :
  (forall a b, R a b -> R' a b) ->
  StronglySorted R rows -> StronglySorted R' rows.
Proof.
  intros Himp; induction 1 as [|c rows Hs IH Hall]; constructor; auto.
  eapply Forall_impl; [|exact Hall]; apply Himp.
Qed.

(** With the right secret and an answering database,
    [GET /api/comments/all] lists every row of the table, whatever its page
    and status, each exactly once, latest first, and [count] is the number
    of rows of the table. *)
Theorem admin_listing_returns_every_row rt request env :
  method request = js "GET" ->
  pathname request = js "/api/comments/all" ->
  get (js "secret") (searchParams request) = Some (adminSecret env) ->
  available (DB env) = true ->
  exists results,
    fetch rt request env
    = ({| Response.status := 200;
          Response.body :=
            CommentsJson true results (List.length (comments (DB env)));
          Response.headers := jsonHeaders |}, sent env)
    /\ Permutation results (comments (DB env))
    /\ StronglySorted (fun a b => (created_at b <= created_at a)%Z) results.
Proof.
  intros Hm Hp Hs Hav.
  rewrite (fetch_getAll rt request env Hm Hp).
  rewrite (getAllComments_authorized rt request env Hs), Hav; cbv zeta.
  set (key := fun c : Comment => (- created_at c)%Z).
  exists (orderBy rt key (comments (DB env))).
  pose proof (orderBy_perm rt key (comments (DB env))) as Hperm.
  split; [|split; [exact Hperm|]].
  - rewrite (Permutation_length Hperm); reflexivity.
  - eapply StronglySorted_weaken; [|apply (orderBy_sorted rt key)].
    unfold key; cbv beta; intros a b H; lia.
Qed.

Lemma admin_listing_returns_every_row_witness :
  exists results,
    fetch stableRuntime
      (getRequest "/api/comments/all" [("secret", "admin-secret-key")]%string)
      sameSecondEnv
    = ({| Response.status := 200;
          Response.body := CommentsJson true results 2;
          Response.headers := jsonHeaders |}, sent sameSecondEnv)
    /\ Permutation results (comments (DB sameSecondEnv)).
Proof.
  destruct (admin_listing_returns_every_row stableRuntime
              (getRequest "/api/comments/all"
                 [("secret", "admin-secret-key")]%string)
              sameSecondEnv eq_refl eq_refl eq_refl eq_refl)
    as (results & Hf & Hperm & _).
  exists results; split; [exact Hf | exact Hperm].
Defined.

(** ** Bodies that [createComment] cannot read *)

(** A [POST /api/comments] whose body is not JSON, or is [null], or whose
    [page_url] passes validation without being a string (an array that
    prints as a URL) is answered 500, not 400, by the [catch] of
    [createComment]; no statement is sent to the database. *)
Theorem unreadable_submission_is_a_server_error rt request env :
  method request = js "POST" ->
  pathname request = js "/api/comments" ->
  json request = None
  \/ json request = Some Null
  \/ (exists body p a c,
         json request = Some body
         /\ property body (js "page_url") = Some p
         /\ property body (js "author_name") = Some a
         /\ property body (js "comment_content") = Some c
         /\ validate rt p a c = []
         /\ forall s, p <> Str s) ->
  fetch rt request env
  = (errorResponse 500 "Failed to create comment", env).
Proof.
  intros Hm Hpath H.
  rewrite (fetch_createComment rt request env Hm Hpath); unfold createComment.
  destruct H as [-> | [-> | (body & p & a & c & -> & -> & -> & -> & Hv & Hp)]];
    try reflexivity.
  rewrite Hv; cbn [List.length Nat.ltb Nat.leb].
  destruct (validate_nil rt _ _ _ Hv) as (_ & (a' & -> & _) & (c' & -> & _)).
  destruct p; try reflexivity.
  exfalso; exact (Hp s eq_refl).
Qed.

Lemma unreadable_submission_is_a_server_error_witness :
  fetch stableRuntime arrayPost devEnv
  = (errorResponse 500 "Failed to create comment", devEnv).
Proof.
  apply (unreadable_submission_is_a_server_error stableRuntime arrayPost
           devEnv eq_refl eq_refl).
  right; right.
  exists (Object [(js "page_url", Array [Str (js "https://example.com/post")]);
                  (js "author_name", Str (js "Ann"));
                  (js "comment_content", Str (js "Hello"))]),
    (Array [Str (js "https://example.com/post")]),
    (Str (js "Ann")), (Str (js "Hello")).
  repeat split; discriminate.
Defined.

(** ** Where a posted comment is listed *)

(** After a valid submission for the page URL [p], sent while the next
    row id is one the worker can read back, the listing of a page URL [q]
    holds the new comment exactly when [q] is the sanitized [p] (taken to
    hold no surrogate outside a pair): the comment is found under the URL
    as escaped, and under the URL as submitted only if escaping leaves it
    unchanged. *)
Theorem posted_comment_is_listed_under_the_sanitized_url
  rt post listing env body p a c q :
  method post = js "POST" ->
  pathname post = js "/api/comments" ->
  json post = Some body ->
  property body (js "page_url") = Some (Str p) ->
  property body (js "author_name") = Some (Str a) ->
  property body (js "comment_content") = Some (Str c) ->
  validate rt (Str p) (Str a) (Str c) = [] ->
  available (DB env) = true ->
  exactIds (DB env) ->
  wellFormed (sanitizeInput p) ->
  method listing = js "GET" ->
  pathname listing = js "/api/comments" ->
  get (js "page_url") (searchParams listing) = Some q ->
  isValidUrl rt (Str q) = true ->
  exists created results,
    Response.body (fst (fetch rt post env)) = CreatedJson (Some created)
    /\ fst (fetch rt listing (snd (fetch rt post env)))
       = {| Response.status := 200;
            Response.body := CommentsJson false results (List.length results);
            Response.headers := jsonHeaders |}
    /\ (In created results <-> q = sanitizeInput p).
Proof.
  intros Hm Hpath Hj Hp Ha Hc Hv Hav Hexact Hwf Hm' Hpath' Hg Hq.
  rewrite (fetch_createComment rt post env Hm Hpath).
  rewrite (createComment_reports rt post env body p a c
             Hj Hp Ha Hc Hv Hav Hexact).
  cbn [fst snd Response.body].
  set (row := createdRow env p a c).
  set (env1 := sent (sent (withComments _ _ env))).
  assert (Hav1 : available (DB env1) = true) by exact Hav.
  assert (Hpage : page_url row = sanitizeInput p) by exact Hwf.
  rewrite (fetch_getComments rt listing env1 Hm' Hpath').
  rewrite (getComments_lists rt listing env1 q Hg Hq Hav1); cbv zeta.
  exists row, (selectByPage q (DB env1)).
  split; [reflexivity|]; split; [reflexivity|].
  rewrite selectByPage_In, Hpage; split.
  - intros (_ & Hu & _); symmetry; exact Hu.
  - intros ->; split; [|split; reflexivity].
    subst env1; cbn [sent withComments DB comments].
    apply in_or_app; right; left; reflexivity.
Qed.

Lemma posted_comment_is_listed_under_the_sanitized_url_witness :
  exists created results,
    Response.body (fst (fetch stableRuntime quotedPost freshEnv))
    = CreatedJson (Some created)
    /\ fst (fetch stableRuntime escapedGet
              (snd (fetch stableRuntime quotedPost freshEnv)))
       = {| Response.status := 200;
            Response.body := CommentsJson false results (List.length results);
            Response.headers := jsonHeaders |}
    /\ In created results.
Proof.
  destruct (posted_comment_is_listed_under_the_sanitized_url stableRuntime
              quotedPost escapedGet freshEnv
              (Object [(js "page_url",
                        Str (js "https://example.com/what's-new"));
                       (js "author_name", Str (js "Ann"));
                       (js "comment_content", Str (js "Nice <3"))])
              (js "https://example.com/what's-new") (js "Ann") (js "Nice <3")
              (js "https://example.com/what&#39;s-new")
              eq_refl eq_refl eq_refl eq_refl eq_refl eq_refl
              eq_refl eq_refl eq_refl eq_refl eq_refl eq_refl
              eq_refl eq_refl)
    as (created & results & H1 & H2 & H3).
  exists created, results; split; [exact H1|]; split; [exact H2|].
  apply H3; reflexivity.
Defined.

(** ** The form of the browser script and the worker *)

Lemma validateCommentForm_None (authorName commentContent : jsstring) :
  Client.validateCommentForm authorName commentContent = None
  <-> 1 <= List.length authorName <= 100
      /\ 1 <= List.length commentContent <= 1000.
Proof.
  unfold Client.validateCommentForm, Client.MAX_NAME_LENGTH,
    Client.MAX_COMMENT_LENGTH.
  destruct authorName as [|x a]; cbn [isEmpty List.length];
    [split; [discriminate | lia]|].
  destruct (Nat.ltb_spec 100 (S (List.length a)));
    [split; [discriminate | lia]|].
  destruct commentContent as [|y c]; cbn [isEmpty List.length];
    [split; [discriminate | lia]|].
  destruct (Nat.ltb_spec 1000 (S (List.length c)));
    [split; [discriminate | lia]|].
  split; [lia | reflexivity].
Qed.

Lemma textOk_Str limit s :
  textOk limit (Str s) <-> 1 <= List.length (trim s) <= limit.
Proof.
  unfold textOk; split.
  - intros (s' & E & H); injection E as <-; exact H.
  - intros H; exists s; auto.
Qed.

(** The script's form and the worker agree.  The form sends a request
    exactly when the worker's checks of [author_name] and
    [comment_content] pass on what was typed: both trim first and both
    count UTF-16 code units against 100 and 1000.  A request the form sends
    for a page URL the URL parser accepts is therefore never answered 400:
    with the database answering and the next row id one the worker can
    read back, it is answered 201, and the stored name and comment are the
    sanitized fields as the database returns text. *)
Theorem form_and_worker_agree rt PAGE_URL nameValue contentValue env :
  ((exists request,
       Client.handleFormSubmit PAGE_URL nameValue contentValue
       = Client.Posted request)
   <-> authorNameErrors (Str nameValue) = []
       /\ commentContentErrors (Str contentValue) = [])
  /\ (forall request,
         Client.handleFormSubmit PAGE_URL nameValue contentValue
         = Client.Posted request ->
         isValidUrl rt (Str PAGE_URL) = true ->
         available (DB env) = true ->
         exactIds (DB env) ->
         fst (fetch rt request env)
         = {| Response.status := 201;
              Response.body :=
                CreatedJson
                  (Some (createdRow env PAGE_URL nameValue contentValue));
              Response.headers := jsonHeaders |}
         /\ comments (DB (snd (fetch rt request env)))
            = comments (DB env)
              ++ [createdRow env PAGE_URL nameValue contentValue]).
Proof.
  assert (Hagree :
    Client.validateCommentForm (trim nameValue) (trim contentValue) = None
    <-> authorNameErrors (Str nameValue) = []
        /\ commentContentErrors (Str contentValue) = []).
  { rewrite validateCommentForm_None.
    unfold authorNameErrors, commentContentErrors.
    rewrite !textErrors_nil, !textOk_Str; reflexivity. }
  split.
  - rewrite <- Hagree; unfold Client.handleFormSubmit; cbv zeta.
    destruct (Client.validateCommentForm _ _); split.
    + intros [request H]; discriminate.
    + discriminate.
    + reflexivity.
    + intros _; eexists; reflexivity.
  - intros request Hsub Hurl Hav Hexact.
    unfold Client.handleFormSubmit in Hsub; cbv zeta in Hsub.
    destruct (Client.validateCommentForm _ _) eqn:Hcheck; [discriminate|].
    injection Hsub as <-.
    apply validateCommentForm_None in Hcheck as [Hname Hcontent].
    assert (Hv : validate rt (Str PAGE_URL) (Str (trim nameValue))
                   (Str (trim contentValue)) = []).
    { unfold validate.
      replace (pageUrlErrors rt (Str PAGE_URL)) with (@nil jsstring).
      - unfold authorNameErrors, commentContentErrors.
        rewrite (proj2 (textErrors_nil _ _ _ 100 (Str (trim nameValue)))),
          (proj2 (textErrors_nil _ _ _ 1000 (Str (trim contentValue))));
          [reflexivity | | ];
          apply textOk_Str; rewrite trim_idempotent; assumption.
      - symmetry; apply pageUrlErrors_nil; split;
          [|apply isValidUrl_true; exact Hurl].
        destruct PAGE_URL; [discriminate Hurl | reflexivity]. }
    match goal with |- context [fetch rt ?r env] => set (request := r) end.
    rewrite (fetch_createComment rt request env eq_refl eq_refl).
    rewrite (createComment_reports rt request env
               (Object [ (js "page_url", Str PAGE_URL);
                         (js "author_name", Str (trim nameValue));
                         (js "comment_content", Str (trim contentValue)) ])
               PAGE_URL (trim nameValue) (trim contentValue)
               eq_refl eq_refl eq_refl eq_refl Hv Hav Hexact).
    unfold createdRow; rewrite !sanitizeInput_trim.
    split; reflexivity.
Qed.

Lemma form_and_worker_agree_witness :
  fst (fetch stableRuntime
         {| method := js "POST"; pathname := js "/api/comments";
            searchParams := [];
            json := Some (Object
                            [(js "page_url", Str (js "https://example.com/post"));
                             (js "author_name", Str (js "Ann"));
                             (js "comment_content", Str (js "1 < 2"))]) |}
         devEnv)
  = {| Response.status := 201;
       Response.body :=
         CreatedJson
           (Some (createdRow devEnv (js "https://example.com/post")
                    (js "  Ann ") (js "1 < 2 ")));
       Response.headers := jsonHeaders |}.
Proof.
  destruct (form_and_worker_agree stableRuntime
              (js "https://example.com/post") (js "  Ann ") (js "1 < 2 ")
              devEnv) as [_ Hposted].
  apply (Hposted _ eq_refl eq_refl eq_refl eq_refl).
Defined.

(** ** Relative times *)

(** For a date the browser can read, [formatRelativeTime] shows: [just now]
    below one minute, a date in the future included; then whole minutes
    from 1 to 59, whole hours from 1 to 23 and whole days from 1 to 6,
    rounded down, with the singular for 1 only; and the formatted date from
    seven days on. *)
Theorem relative_time_is_rounded_down
  parseDate formatDate now dateString date :
  parseDate dateString = Some date ->
  (((now - date) / 1000 < 60)%Z ->
   Client.formatRelativeTime parseDate formatDate now dateString
   = js "just now")
  /\ (forall unit_ size limit,
         In (unit_, size, limit)
           [(" minute"%string, 60, 60); (" hour"%string, 3600, 24);
            (" day"%string, 86400, 7)]%Z ->
         (size <= (now - date) / 1000 < size * limit)%Z ->
         exists n,
           (1 <= n < limit)%Z
           /\ (n * size <= (now - date) / 1000 < (n + 1) * size)%Z
           /\ Client.formatRelativeTime parseDate formatDate now dateString
              = Client.decimal n ++ js unit_
                ++ (if (n =? 1)%Z then js " ago" else js "s ago"))
  /\ ((604800 <= (now - date) / 1000)%Z ->
      Client.formatRelativeTime parseDate formatDate now dateString
      = formatDate dateString).
Proof.
  intros Hdate; unfold Client.formatRelativeTime; rewrite Hdate; cbv zeta.
  set (d := ((now - date) / 1000)%Z).
  split; [|split].
  - intros H; apply Z.ltb_lt in H; rewrite H; reflexivity.
  - intros unit_ size limit Hin Hd.
    simpl in Hin; destruct Hin as [E | [E | [E | []]]];
      injection E as <- <- <-.
    + exists (d / 60)%Z.
      destruct (Z.ltb_spec d 60); [lia|].
      destruct (Z.ltb_spec d 3600); [|lia].
      pose proof (Z.div_mod d 60 ltac:(lia)).
      pose proof (Z.mod_pos_bound d 60 ltac:(lia)).
      repeat split; try lia.
      unfold Client.plural; destruct (d / 60 =? 1)%Z; reflexivity.
    + exists (d / 3600)%Z.
      destruct (Z.ltb_spec d 60); [lia|].
      destruct (Z.ltb_spec d 3600); [lia|].
      destruct (Z.ltb_spec d 86400); [|lia].
      pose proof (Z.div_mod d 3600 ltac:(lia)).
      pose proof (Z.mod_pos_bound d 3600 ltac:(lia)).
      repeat split; try lia.
      unfold Client.plural; destruct (d / 3600 =? 1)%Z; reflexivity.
    + exists (d / 86400)%Z.
      destruct (Z.ltb_spec d 60); [lia|].
      destruct (Z.ltb_spec d 3600); [lia|].
      destruct (Z.ltb_spec d 86400); [lia|].
      destruct (Z.ltb_spec d 604800); [|lia].
      pose proof (Z.div_mod d 86400 ltac:(lia)).
      pose proof (Z.mod_pos_bound d 86400 ltac:(lia)).
      repeat split; try lia.
      unfold Client.plural; destruct (d / 86400 =? 1)%Z; reflexivity.
  - intros H.
    destruct (Z.ltb_spec d 60); [lia|].
    destruct (Z.ltb_spec d 3600); [lia|].
    destruct (Z.ltb_spec d 86400); [lia|].
    destruct (Z.ltb_spec d 604800); [lia|].
    reflexivity.
Qed.

Lemma relative_time_is_rounded_down_witness :
  Client.formatRelativeTime (fun _ => Some 1700000000000%Z) (fun s => s)
    1700000119999%Z (js "2023-11-14 22:13:20")
  = js "1 minute ago".
Proof.
  destruct (relative_time_is_rounded_down
              (fun _ => Some 1700000000000%Z) (fun s => s)
              1700000119999%Z (js "2023-11-14 22:13:20") 1700000000000%Z
              eq_refl) as (_ & Hunits & _).
  destruct (Hunits " minute"%string 60%Z 60%Z) as (n & Hn & Hd & ->).
  - left; reflexivity.
  - vm_compute; split; [discriminate | reflexivity].
  - change ((1700000119999 - 1700000000000) / 1000)%Z with 119%Z in Hd.
    assert (n = 1%Z) as -> by lia.
    reflexivity.
Defined.

(** ** When the database fails *)

Lemma createComment_down rt request env :
  available (DB env) = false ->
  failureShape (fst (createComment rt request env)).
Proof.
  intros Hav; unfold createComment, failureShape.
  destruct (json request) as [body|]; [|simpl; tauto].
  destruct (property body (js "page_url")) as [p|]; [|simpl; tauto].
  destruct (property body (js "author_name")) as [a|]; [|simpl; tauto].
  destruct (property body (js "comment_content")) as [c|]; [|simpl; tauto].
  destruct (Nat.ltb 0 _); [simpl; tauto|].
  rewrite Hav; destruct p, a, c; simpl; tauto.
Qed.

Lemma getComments_down rt request env :
  available (DB env) = false ->
  failureShape (fst (getComments rt request env)).
Proof.
  intros Hav; unfold getComments, failureShape.
  destruct (get _ _) as [pageUrl|]; [|simpl; tauto].
  destruct (isEmpty pageUrl); [simpl; tauto|].
  destruct (negb _); [simpl; tauto|].
  rewrite Hav; simpl; tauto.
Qed.

Lemma getAllComments_down rt request env :
  available (DB env) = false ->
  failureShape (fst (getAllComments rt request env)).
Proof.
  intros Hav; unfold getAllComments, failureShape.
  destruct (unauthorized _ _); [simpl; tauto|].
  rewrite Hav; simpl; tauto.
Qed.

Lemma deleteComment_down request env commentId :
  allDigits commentId = true ->
  available (DB env) = false ->
  failureShape (fst (deleteComment request env commentId)).
Proof.
  intros Hd Hav; unfold deleteComment, failureShape.
  rewrite Hd, (allDigits_nonempty _ Hd), Hav.
  destruct (unauthorized _ _); simpl; tauto.
Qed.

(** While the database fails no request is answered with a list, a created
    comment, a deletion or a 404, and the table is what it was.  A listing
    for a well-formed page URL, and a request on [/api/comments/all] or a
    [DELETE] carrying the right secret, are answered 500. *)
Theorem database_failure_is_reported_as_500 rt request env :
  available (DB env) = false ->
  comments (DB (snd (fetch rt request env))) = comments (DB env)
  /\ failureShape (fst (fetch rt request env))
  /\ (forall pageUrl,
         method request = js "GET" ->
         pathname request = js "/api/comments" ->
         get (js "page_url") (searchParams request) = Some pageUrl ->
         isValidUrl rt (Str pageUrl) = true ->
         fetch rt request env
         = (errorResponse 500 "Failed to retrieve comments", sent env))
  /\ (adminGated request = true ->
      pathname request <> js "/admin" ->
      get (js "secret") (searchParams request) = Some (adminSecret env) ->
      Response.status (fst (fetch rt request env)) = 500%Z).
Proof.
  intros Hav; split; [|split; [|split]].
  - destruct (fetch_effect rt request env)
      as [r Hr | r Hr | p a c Hm Hpath Hup Hroom | n Hm Hup];
      try reflexivity; rewrite Hav in Hup; discriminate.
  - unfold fetch.
    destruct (streq (method request) (js "OPTIONS")); [exact I|].
    destruct (streq (pathname request) (js "/api/comments")).
    { destruct (streq (method request) (js "GET"));
        [apply getComments_down, Hav|].
      destruct (streq (method request) (js "POST"));
        [apply createComment_down, Hav | exact I]. }
    destruct (_ && _); [apply getAllComments_down, Hav|].
    destruct (deleteMatch (pathname request)) as [commentId|] eqn:Hd.
    + destruct (deleteMatch_Some _ _ Hd) as (Hdigits & _).
      destruct (streq (method request) (js "DELETE"));
        [apply deleteComment_down; assumption|].
      destruct (_ && _); [destruct (unauthorized _ _); exact I|].
      destruct (_ && _); exact I.
    + destruct (_ && _); [destruct (unauthorized _ _); exact I|].
      destruct (_ && _); exact I.
  - intros pageUrl Hm Hp Hg Hv.
    rewrite (fetch_getComments rt request env Hm Hp).
    unfold getComments; rewrite Hg.
    destruct pageUrl as [|ch rest]; [discriminate Hv|].
    cbn [isEmpty]; rewrite Hv, Hav; reflexivity.
  - intros Hgate Hnot Hs; unfold adminGated in Hgate.
    apply orb_true_iff in Hgate as [Hgate | Hgate];
      [apply orb_true_iff in Hgate as [Hgate | Hgate]|];
      apply andb_true_iff in Hgate as [Hm Hp]; apply streq_eq in Hm.
    + apply streq_eq in Hp.
      rewrite (fetch_getAll rt request env Hm Hp).
      rewrite (getAllComments_authorized rt request env Hs), Hav.
      reflexivity.
    + destruct (deleteMatch (pathname request)) as [commentId|] eqn:Hd;
        [|discriminate].
      rewrite (fetch_delete rt request env commentId Hm Hd).
      destruct (deleteMatch_Some _ _ Hd) as (Hdigits & _).
      rewrite (deleteComment_authorized request env commentId Hs Hdigits), Hav.
      reflexivity.
    + apply streq_eq in Hp; contradiction.
Qed.

Lemma database_failure_is_reported_as_500_witness :
  fetch stableRuntime plainGet downEnv
  = (errorResponse 500 "Failed to retrieve comments", sent downEnv).
Proof.
  destruct (database_failure_is_reported_as_500 stableRuntime plainGet
              downEnv eq_refl) as (_ & _ & Hlist & _).
  apply (Hlist (js "https://example.com/post")); reflexivity.
Defined.

(** ** A comment typed into the form and the page reloaded *)

Lemma handleFormSubmit_posted rt PAGE_URL nameValue contentValue request :
  Client.handleFormSubmit PAGE_URL nameValue contentValue
  = Client.Posted request ->
  isValidUrl rt (Str PAGE_URL) = true ->
  request
  = {| method := js "POST"; pathname := js "/api/comments";
       searchParams := [];
       json := Some (Object
                       [ (js "page_url", Str PAGE_URL);
                         (js "author_name", Str (trim nameValue));
                         (js "comment_content", Str (trim contentValue)) ]) |}
  /\ validate rt (Str PAGE_URL) (Str (trim nameValue))
       (Str (trim contentValue)) = [].
Proof.
  intros Hsub Hurl.
  unfold Client.handleFormSubmit in Hsub; cbv zeta in Hsub.
  destruct (Client.validateCommentForm _ _) eqn:Hcheck; [discriminate|].
  injection Hsub as <-; split; [reflexivity|].
  apply validateCommentForm_None in Hcheck as [Hname Hcontent].
  unfold validate.
  replace (pageUrlErrors rt (Str PAGE_URL)) with (@nil jsstring).
  - unfold authorNameErrors, commentContentErrors.
    rewrite (proj2 (textErrors_nil _ _ _ 100 (Str (trim nameValue)))),
      (proj2 (textErrors_nil _ _ _ 1000 (Str (trim contentValue))));
      [reflexivity | | ];
      apply textOk_Str; rewrite trim_idempotent; assumption.
  - symmetry; apply pageUrlErrors_nil; split;
      [|apply isValidUrl_true; exact Hurl].
    destruct PAGE_URL; [discriminate Hurl | reflexivity].
Qed.

(** A visitor's comment sent by the form and stored is in the list that
    [loadComments] fetches next exactly when sanitizing leaves the page's
    URL unchanged; on a page whose URL holds an apostrophe, or white space
    at either end, the visitor's own comment does not come back.  (The
    sanitized URL is taken to hold no surrogate outside a pair, and the
    table to have a row id left.) *)
Theorem form_comment_returns_iff_url_is_plain
  rt PAGE_URL nameValue contentValue request env :
  Client.handleFormSubmit PAGE_URL nameValue contentValue
  = Client.Posted request ->
  isValidUrl rt (Str PAGE_URL) = true ->
  available (DB env) = true ->
  (largestRowid (DB env) < MAX_ROWID)%Z ->
  wellFormed (sanitizeInput PAGE_URL) ->
  exists results,
    comments (DB (snd (fetch rt request env)))
    = comments (DB env) ++ [createdRow env PAGE_URL nameValue contentValue]
    /\ fst (fetch rt (Client.loadComments PAGE_URL)
              (snd (fetch rt request env)))
       = {| Response.status := 200;
            Response.body := CommentsJson false results (List.length results);
            Response.headers := jsonHeaders |}
    /\ (In (createdRow env PAGE_URL nameValue contentValue) results
        <-> sanitizeInput PAGE_URL = PAGE_URL).
Proof.
  intros Hsub Hurl Hav Hroom Hwf.
  destruct (handleFormSubmit_posted rt _ _ _ _ Hsub Hurl) as [-> Hv].
  match goal with |- context [fetch rt ?r env] => set (request := r) end.
  rewrite (fetch_createComment rt request env eq_refl eq_refl).
  rewrite (createComment_accepts rt request env
             (Object [ (js "page_url", Str PAGE_URL);
                       (js "author_name", Str (trim nameValue));
                       (js "comment_content", Str (trim contentValue)) ])
             PAGE_URL (trim nameValue) (trim contentValue)
             eq_refl eq_refl eq_refl eq_refl Hv Hav Hroom).
  cbn [snd].
  replace (createdRow env PAGE_URL (trim nameValue) (trim contentValue))
    with (createdRow env PAGE_URL nameValue contentValue)
    by (unfold createdRow; rewrite !sanitizeInput_trim; reflexivity).
  set (row := createdRow env PAGE_URL nameValue contentValue).
  set (env1 := sent (sent (withComments _ _ env))).
  assert (Hav1 : available (DB env1) = true) by exact Hav.
  assert (Hpage : page_url row = sanitizeInput PAGE_URL) by exact Hwf.
  rewrite (fetch_getComments rt (Client.loadComments PAGE_URL) env1
             eq_refl eq_refl).
  rewrite (getComments_lists rt (Client.loadComments PAGE_URL) env1 PAGE_URL
             eq_refl Hurl Hav1); cbv zeta.
  exists (selectByPage PAGE_URL (DB env1)).
  split; [reflexivity|]; split; [reflexivity|].
  rewrite selectByPage_In, Hpage; split.
  - intros (_ & Hu & _); exact Hu.
  - intros Hplain; split; [|split; [exact Hplain | reflexivity]].
    subst env1; cbn [sent withComments DB comments].
    apply in_or_app; right; left; reflexivity.
Qed.

Lemma form_comment_returns_iff_url_is_plain_witness :
  exists results,
    fst (fetch stableRuntime
           (Client.loadComments (js "https://example.com/what's-new"))
           (snd (fetch stableRuntime quotedPost freshEnv)))
    = {| Response.status := 200;
         Response.body := CommentsJson false results (List.length results);
         Response.headers := jsonHeaders |}
    /\ ~ In (createdRow freshEnv (js "https://example.com/what's-new")
               (js "Ann") (js "Nice <3")) results.
Proof.
  destruct (form_comment_returns_iff_url_is_plain stableRuntime
              (js "https://example.com/what's-new") (js "Ann") (js "Nice <3")
              quotedPost freshEnv eq_refl eq_refl eq_refl eq_refl eq_refl)
    as (results & _ & Hf & Hiff).
  exists results; split; [exact Hf|].
  intros Hin; apply Hiff in Hin; discriminate Hin.
Defined.

(** ** Row ids beyond what a JavaScript number holds *)

Lemma byId_app n rows more :
  byId n (rows ++ more)
  = match byId n rows with
    | Some row => Some row
    | None => byId n more
    end.
Proof.
  unfold byId; induction rows as [|c rows IH]; simpl; [reflexivity|].
  destruct (Z.eqb (id c) n); [reflexivity | exact IH].
Qed.

(** Once the table has held the largest rowid, a valid submission is
    answered 500: the [INSERT] fails, one statement has been sent and the
    table is what it was. *)
Theorem exhausted_rowids_are_reported_as_500 rt request env body p a c :
  method request = js "POST" ->
  pathname request = js "/api/comments" ->
  json request = Some body ->
  property body (js "page_url") = Some (Str p) ->
  property body (js "author_name") = Some (Str a) ->
  property body (js "comment_content") = Some (Str c) ->
  validate rt (Str p) (Str a) (Str c) = [] ->
  available (DB env) = true ->
  (MAX_ROWID <= largestRowid (DB env))%Z ->
  fetch rt request env
  = (errorResponse 500 "Failed to create comment", sent env).
Proof.
  intros Hm Hpath Hj Hp Ha Hc Hv Hav Hfull.
  rewrite (fetch_createComment rt request env Hm Hpath).
  exact (createComment_full rt request env body p a c
           Hj Hp Ha Hc Hv Hav Hfull).
Qed.

Lemma exhausted_rowids_are_reported_as_500_witness :
  fetch stableRuntime plainPost (countingFrom [] MAX_ROWID)
  = (errorResponse 500 "Failed to create comment",
     sent (countingFrom [] MAX_ROWID)).
Proof.
  apply (exhausted_rowids_are_reported_as_500 stableRuntime plainPost
           (countingFrom [] MAX_ROWID)
           (Object [(js "page_url", Str (js "https://example.com/post"));
                    (js "author_name", Str (js "  Ann "));
                    (js "comment_content", Str (js "1 < 2"))])
           (js "https://example.com/post") (js "  Ann ") (js "1 < 2")
           eq_refl eq_refl eq_refl eq_refl eq_refl eq_refl eq_refl eq_refl).
  discriminate.
Defined.

(** The worker reads the new row back by [last_row_id], a JavaScript
    number.  Up to 2^53 that is the id of the new row, and the response
    reports the row just written.  Beyond, the number is the nearest
    double: with the counter at 2^53 the new row gets the id 2^53 + 1,
    which is read as 2^53, and the response, still 201, reports [null] or,
    when the table holds a row of the id 2^53, that older row. *)
Theorem new_row_is_read_back_by_the_rounded_id rt request env body p a c :
  method request = js "POST" ->
  pathname request = js "/api/comments" ->
  json request = Some body ->
  property body (js "page_url") = Some (Str p) ->
  property body (js "author_name") = Some (Str a) ->
  property body (js "comment_content") = Some (Str c) ->
  validate rt (Str p) (Str a) (Str c) = [] ->
  available (DB env) = true ->
  (largestRowid (DB env) < MAX_ROWID)%Z ->
  Response.status (fst (fetch rt request env)) = 201%Z
  /\ comments (DB (snd (fetch rt request env)))
     = comments (DB env) ++ [createdRow env p a c]
  /\ Response.body (fst (fetch rt request env))
     = CreatedJson (byId (toDouble (id (createdRow env p a c)))
                      (comments (DB (snd (fetch rt request env)))))
  /\ (exactIds (DB env) ->
      Response.body (fst (fetch rt request env))
      = CreatedJson (Some (createdRow env p a c)))
  /\ (sequence (DB env) = MAX_EXACT ->
      Forall (fun d => (id d <= MAX_EXACT)%Z) (comments (DB env)) ->
      Response.body (fst (fetch rt request env))
      = CreatedJson (byId MAX_EXACT (comments (DB env)))).
Proof.
  intros Hm Hpath Hj Hp Ha Hc Hv Hav Hroom.
  rewrite (fetch_createComment rt request env Hm Hpath).
  rewrite (createComment_accepts rt request env body p a c
             Hj Hp Ha Hc Hv Hav Hroom).
  cbn [fst snd Response.status Response.body sent withComments DB comments].
  split; [reflexivity|]; split; [reflexivity|]; split; [reflexivity|].
  split.
  - intros Hexact; rewrite (readBack_exact env p a c Hexact); reflexivity.
  - intros Hseq Hall.
    assert (Hlargest : largestRowid (DB env) = MAX_EXACT).
    { unfold largestRowid; rewrite Hseq.
      pose proof (maxId_nonneg (comments (DB env))).
      assert (maxId (comments (DB env)) <= MAX_EXACT)%Z; [|lia].
      clear - Hall; induction Hall as [|d rows Hd _ IH]; simpl;
        [unfold MAX_EXACT|]; lia. }
    rewrite Hlargest.
    change (toDouble (MAX_EXACT + 1)) with MAX_EXACT.
    f_equal; rewrite byId_app.
    destruct (byId MAX_EXACT (comments (DB env))); [reflexivity|].
    unfold byId; cbn [find createdRow id]; rewrite Hlargest; reflexivity.
Qed.

Lemma new_row_is_read_back_by_the_rounded_id_witness :
  fst (fetch stableRuntime plainPost (countingFrom [] MAX_EXACT))
  = {| Response.status := 201;
       Response.body := CreatedJson None;
       Response.headers := jsonHeaders |}
  /\ map id (comments (DB (snd (fetch stableRuntime plainPost
                                  (countingFrom [] MAX_EXACT)))))
     = [MAX_EXACT + 1]%Z
  /\ Response.body
       (fst (fetch stableRuntime plainPost
               (countingFrom
                  [someComment MAX_EXACT 1700000000 "https://example.com/post"]
                  MAX_EXACT)))
     = CreatedJson
         (Some (someComment MAX_EXACT 1700000000 "https://example.com/post")).
Proof.
  split; [reflexivity|]; split; [reflexivity|].
  destruct (new_row_is_read_back_by_the_rounded_id stableRuntime plainPost
              (countingFrom
                 [someComment MAX_EXACT 1700000000 "https://example.com/post"]
                 MAX_EXACT)
              (Object [(js "page_url", Str (js "https://example.com/post"));
                       (js "author_name", Str (js "  Ann "));
                       (js "comment_content", Str (js "1 < 2"))])
              (js "https://example.com/post") (js "  Ann ") (js "1 < 2")
              eq_refl eq_refl eq_refl eq_refl eq_refl eq_refl eq_refl eq_refl
              eq_refl)
    as (_ & _ & _ & _ & Hold).
  rewrite (Hold eq_refl); [reflexivity|].
  repeat constructor; simpl; lia.
Defined.

(** ** Text beyond what UTF-8 holds *)



